(** * Markov-switching regression (marketlearn/learning/msr/markov_switching.py)

    A shallow embedding of [MarkovSwitchingRegression] and of the NumPy and
    SciPy operations it calls, followed by the properties of the regime
    density evaluator, the transition matrix builder, the Hamilton filter,
    the objective and the fit driver.

    Numbers.  A NumPy [float64] is an exact real or a non-finite value
    (nan, +inf or -inf, not told apart); rounding and overflow are not
    modelled.  An operation with a non-finite operand is non-finite.  That
    is IEEE arithmetic for nan; for an infinity it is, except where the
    result is finite again (as in [1 / inf] or [exp(-inf)]), so data and
    parameters that hold an infinity are outside the model.  From finite
    inputs the class reaches an infinity only by dividing by zero or by
    taking the logarithm of zero, and what it then computes from it stays
    non-finite.  Division by zero, the square root of a negative number
    and the logarithm of a non-positive one are warnings in NumPy, not
    exceptions.

    Where a statement would depend on the rounding it is made in one of
    two other readings of [float64]: [Rounded], where every operation
    rounds its exact result once and the rounding is a parameter, and
    [Binary64], the IEEE-754 binary64 numbers of the machine.  The
    transition matrix builder is stated there.  The further properties at
    the end depend on no number at all: they follow from the control
    flow, the indexing and the shapes of the arrays.

    Exceptions.  A Python exception is a value of [exn]; a computation
    that may raise returns a [result].  Methods that read or write
    instance attributes are functions in the state monad [M] over the
    instance record [self]; the others are plain functions. *)

From Stdlib Require Import Floats String Reals Lra Lia ZArith Bool List.
Import ListNotations.
Local Open Scope R_scope.

(** ** Python exceptions and results *)

Inductive exn : Type :=
| ValueError (msg : string)
| IndexError (msg : string)
| LinAlgError (msg : string)
| AttributeError (msg : string)
| TypeError (msg : string).

Inductive result (A : Type) : Type :=
| Ok (a : A)
| Raise (e : exn).
Arguments Ok {A} a.
Arguments Raise {A} e.

Definition rbind {A B : Type} (m : result A) (k : A -> result B) : result B :=
  match m with
  | Ok a => k a
  | Raise e => Raise e
  end.

Fixpoint rmap_list {A B : Type} (f : A -> result B) (l : list A) : result (list B) :=
  match l with
  | [] => Ok []
  | a :: l' => rbind (f a) (fun b => rbind (rmap_list f l') (fun bs => Ok (b :: bs)))
  end.

Definition is_ok {A : Type} (m : result A) : Prop := exists a, m = Ok a.

(** ** Python sequences: indexing and slicing *)

Module Py.

(** [l[i]] for a possibly negative index. *)
Definition norm_index (len : nat) (i : Z) : option nat :=
  let n := Z.of_nat len in
  if ((0 <=? i) && (i <? n))%Z then Some (Z.to_nat i)
  else if ((- n <=? i) && (i <? 0))%Z then Some (Z.to_nat (i + n))
  else None.

Definition getitem {A : Type} (l : list A) (i : Z) : result A :=
  match norm_index (length l) i with
  | Some k =>
      match nth_error l k with
      | Some a => Ok a
      | None => Raise (IndexError "index out of bounds")
      end
  | None => Raise (IndexError "index out of bounds")
  end.

Fixpoint update {A : Type} (l : list A) (k : nat) (v : A) : list A :=
  match l, k with
  | [], _ => []
  | _ :: l', O => v :: l'
  | a :: l', S k' => a :: update l' k' v
  end.

Definition setitem {A : Type} (l : list A) (i : Z) (v : A) : result (list A) :=
  match norm_index (length l) i with
  | Some k => Ok (update l k v)
  | None => Raise (IndexError "index out of bounds")
  end.

(** A slice bound is clamped to the sequence, never an error. *)
Definition slice_bound (len : nat) (i : Z) : nat :=
  let n := Z.of_nat len in
  if (i <? 0)%Z then Z.to_nat (Z.max 0 (i + n)) else Z.to_nat (Z.min i n).

(** [l[lo:hi]], either bound optional. *)
Definition slice {A : Type} (l : list A) (lo hi : option Z) : list A :=
  let a := match lo with Some i => slice_bound (length l) i | None => O end in
  let b := match hi with Some i => slice_bound (length l) i | None => length l end in
  firstn (b - a) (skipn a l).

(** [a, b = l] *)
Definition unpack2 {A : Type} (l : list A) : result (A * A) :=
  match l with
  | [a; b] => Ok (a, b)
  | [] | [_] => Raise (ValueError "not enough values to unpack")
  | _ => Raise (ValueError "too many values to unpack")
  end.

End Py.

(** ** NumPy and SciPy *)

Module NumPy.

Inductive float64 : Type :=
| Finite (r : R)
| NonFinite.

Definition fadd (a b : float64) : float64 :=
  match a, b with
  | Finite x, Finite y => Finite (x + y)
  | _, _ => NonFinite
  end.

Definition fsub (a b : float64) : float64 :=
  match a, b with
  | Finite x, Finite y => Finite (x - y)
  | _, _ => NonFinite
  end.

Definition fmul (a b : float64) : float64 :=
  match a, b with
  | Finite x, Finite y => Finite (x * y)
  | _, _ => NonFinite
  end.

Definition fneg (a : float64) : float64 :=
  match a with
  | Finite x => Finite (- x)
  | NonFinite => NonFinite
  end.

(** Division by zero is a warning, not an exception: it yields nan or
    an infinity. *)
Definition fdiv (a b : float64) : float64 :=
  match a, b with
  | Finite x, Finite y => if Req_dec_T y 0 then NonFinite else Finite (x / y)
  | _, _ => NonFinite
  end.

(** [np.sqrt]: nan below zero. *)
Definition fsqrt (a : float64) : float64 :=
  match a with
  | Finite x => if Rlt_dec x 0 then NonFinite else Finite (sqrt x)
  | NonFinite => NonFinite
  end.

(** [np.exp] *)
Definition fexp (a : float64) : float64 :=
  match a with
  | Finite x => Finite (exp x)
  | NonFinite => NonFinite
  end.

(** [np.log]: -inf at zero, nan below. *)
Definition flog (a : float64) : float64 :=
  match a with
  | Finite x => if Rle_dec x 0 then NonFinite else Finite (ln x)
  | NonFinite => NonFinite
  end.

(** 1-D and 2-D arrays, the latter as the list of its rows. *)
Abbreviation array1 := (list float64) (only parsing).
Abbreviation array2 := (list (list float64)) (only parsing).

Definition zero : float64 := Finite 0.
Definition one : float64 := Finite 1.

Fixpoint zip_with {A B C : Type} (f : A -> B -> C) (l : list A) (l' : list B) : list C :=
  match l, l' with
  | a :: t, b :: t' => f a b :: zip_with f t t'
  | _, _ => []
  end.

(** [a.sum()] *)
Definition sum (a : array1) : float64 := fold_right fadd zero a.

(** [np.zeros(k)]; a negative dimension is refused. *)
Definition zeros (k : Z) : result array1 :=
  if (k <? 0)%Z then Raise (ValueError "negative dimensions are not allowed")
  else Ok (repeat zero (Z.to_nat k)).

(** [np.zeros((n, k))] *)
Definition zeros2 (n : nat) (k : Z) : result array2 :=
  rbind (zeros k) (fun row => Ok (repeat row n)).

Definition matmul_mismatch : exn :=
  ValueError "matmul: Input operand 1 has a mismatch in its core dimension 0".

(** [u @ v] on two 1-D arrays. *)
Definition dot (u v : array1) : result float64 :=
  if Nat.eqb (length u) (length v) then Ok (sum (zip_with fmul u v))
  else Raise matmul_mismatch.

(** [A @ v], 2-D by 1-D. *)
Definition matvec (A : array2) (v : array1) : result array1 :=
  rmap_list (fun row => dot row v) A.

(** [A.T] of a rectangular array. *)
Definition transpose (A : array2) : array2 :=
  match A with
  | [] => []
  | r :: _ => map (fun j => map (fun row => nth j row zero) A) (seq 0 (length r))
  end.

(** [A @ B], 2-D by 2-D. *)
Definition matmul (A B : array2) : result array2 :=
  rmap_list (fun row => matvec (transpose B) row) A.

(** [c - A] where [c] has shape (m, 1) and [A] shape (m, k): the column
    is broadcast along the rows. *)
Definition sub_broadcast_col (c : array2) (A : array2) : array2 :=
  zip_with (fun ci row => map (fun x => fsub (hd zero ci) x) row) c A.

(** [np.concatenate((A, B))] along axis 0. *)
Definition concatenate (A B : array2) : array2 := A ++ B.

(** [a * b], elementwise on rows of one length. *)
Definition mul (a b : array1) : array1 := zip_with fmul a b.

(** [a / c], an array by a scalar. *)
Definition div_scalar (a : array1) (c : float64) : array1 :=
  map (fun x => fdiv x c) a.

(** [np.log(a)], elementwise. *)
Definition log (a : array1) : array1 := map flog a.

(** [a.mean()] *)
Definition mean (a : array1) : float64 :=
  fdiv (sum a) (Finite (INR (length a))).

(** [a.var(ddof=1)] of the flattened array. *)
Definition var_ddof1 (a : array1) : float64 :=
  let m := mean a in
  fdiv (sum (map (fun x => fmul (fsub x m) (fsub x m)) a))
       (Finite (INR (length a) - 1)).

(** [M[i] = v] on a 2-D array: the row index must exist and [v] must
    have the row's length (or length 1, which is broadcast). *)
Definition setrow (M : array2) (i : Z) (v : array1) : result array2 :=
  rbind (Py.getitem M i) (fun row =>
    if Nat.eqb (length v) (length row) then Py.setitem M i v
    else if Nat.eqb (length v) 1 then Py.setitem M i (repeat (hd zero v) (length row))
    else Raise (ValueError "could not broadcast input array")).

(** *** [np.linalg.cholesky]

    Row by row: [L[i][j] = (M[i][j] - sum_{k<j} L[i][k] L[j][k]) / L[j][j]]
    below the diagonal and [L[i][i] = sqrt (M[i][i] - sum_{k<i} L[i][k]^2)]
    on it.  Only the lower triangle of [M] is read.  A pivot that is not
    positive (or is nan) raises [LinAlgError]. *)

Definition not_pd : exn := LinAlgError "Matrix is not positive definite".

Fixpoint chol_offdiag (Ls : array2) (mi : array1) (acc : array1) : array1 :=
  match Ls, mi with
  | lj :: Ls', mij :: mi' =>
      let j := length acc in
      let s := sum (zip_with fmul acc (firstn j lj)) in
      chol_offdiag Ls' mi' (acc ++ [fdiv (fsub mij s) (nth j lj zero)])
  | _, _ => acc
  end.

Fixpoint chol_rows (n : nat) (Ls : array2) (rows : array2) : result array2 :=
  match rows with
  | [] => Ok Ls
  | mi :: rest =>
      let i := length Ls in
      let off := chol_offdiag Ls mi [] in
      match fsub (nth i mi zero) (sum (zip_with fmul off off)) with
      | Finite d =>
          if Rle_dec d 0 then Raise not_pd
          else chol_rows n (Ls ++ [off ++ Finite (sqrt d) :: repeat zero (n - S i)]) rest
      | NonFinite => Raise not_pd
      end
  end.

Definition is_square (M : array2) : bool :=
  forallb (fun row => Nat.eqb (length row) (length M)) M.

Definition cholesky (M : array2) : result array2 :=
  if is_square M then chol_rows (length M) [] M
  else Raise (LinAlgError "Last 2 dimensions of the array must be square").

(** *** [scipy.linalg.solve_triangular]

    Forward substitution for a lower-triangular matrix; the upper case is
    the same substitution run from the last unknown to the first.  A
    non-finite entry is refused ([check_finite]), a zero pivot raises
    [LinAlgError]. *)

Definition is_finite (a : float64) : bool :=
  match a with Finite _ => true | NonFinite => false end.

Fixpoint forward_subst (rows : array2) (b : array1) (xs : array1) : result array1 :=
  match rows, b with
  | r :: rows', bi :: b' =>
      let i := length xs in
      match nth i r zero with
      | Finite d =>
          if Req_dec_T d 0 then Raise (LinAlgError "singular matrix")
          else forward_subst rows' b'
                 (xs ++ [fdiv (fsub bi (sum (zip_with fmul (firstn i r) xs))) (Finite d)])
      | NonFinite => Raise (ValueError "array must not contain infs or NaNs")
      end
  | _, _ => Ok xs
  end.

Definition solve_triangular (a : array2) (b : array1) (lower : bool) : result array1 :=
  if negb (is_square a && Nat.eqb (length a) (length b)) then
    Raise (ValueError "shapes of a and b are incompatible")
  else if negb (forallb (forallb is_finite) a && forallb is_finite b) then
    Raise (ValueError "array must not contain infs or NaNs")
  else if lower then forward_subst a b []
  else rbind (forward_subst (map (@rev float64) (rev a)) (rev b) [])
             (fun xs => Ok (rev xs)).

End NumPy.

(** ** The class [MarkovSwitchingRegression] *)

Import NumPy.

(** The instance: the three attributes set by [__init__], and the four
    that [_normpdf] writes (absent until its first call). *)
Record self : Type := mkSelf {
  degree : Z;
  regime : Z;
  fit_intercept : bool;
  attr_beta : option array1;
  attr_var : option float64;
  attr_xt : option array1;
  attr_yt : option float64
}.

Definition __init__ (degree regime : Z) (fit_intercept : bool) : self :=
  mkSelf degree regime fit_intercept None None None None.

(** Computations on an instance: a result and the instance afterwards
    (an exception keeps the writes made before it). *)
Definition M (A : Type) : Type := self -> result A * self.

Definition ret {A : Type} (a : A) : M A := fun st => (Ok a, st).

Definition raise {A : Type} (e : exn) : M A := fun st => (Raise e, st).

Definition bind {A B : Type} (m : M A) (k : A -> M B) : M B :=
  fun st =>
    match m st with
    | (Ok a, st') => k a st'
    | (Raise e, st') => (Raise e, st')
    end.

Definition lift {A : Type} (r : result A) : M A := fun st => (r, st).

Definition get {A : Type} (f : self -> A) : M A := fun st => (Ok (f st), st).

Definition put (f : self -> self) : M unit := fun st => (Ok tt, f st).

Declare Scope msr_scope.
Delimit Scope msr_scope with msr.
Notation "x <- m ;; k" := (bind m (fun x => k))
  (at level 61, m at next level, right associativity) : msr_scope.
Notation "m ;;; k" := (bind m (fun _ => k))
  (at level 61, right associativity) : msr_scope.
Local Open Scope msr_scope.

(** [for t in ts: L = body(t, L)] *)
Fixpoint for_each {S : Type} (ts : list nat) (body : nat -> S -> M S) (L : S) : M S :=
  match ts with
  | [] => ret L
  | t :: ts' => L' <- body t L ;; for_each ts' body L'
  end.

(** [1.0 / (1 + np.exp(-z))], elementwise. *)
Definition _sigmoid (z : array1) : array1 :=
  map (fun x => fdiv (Finite 1) (fadd (Finite 1) (fexp (fneg x)))) z.

Definition _linear_solve (A : array2) (b : array1) : result array1 :=
  rbind (matmul (transpose A) A) (fun AtA =>
  rbind (cholesky AtA) (fun M =>
  rbind (matvec (transpose A) b) (fun Atb =>
  rbind (solve_triangular M Atb true) (fun v =>
  solve_triangular (transpose M) v false)))).

Definition regime_not_supported : exn := ValueError "state regime not supported".

Definition _beta (s : Z) (params1 params2 : array1) : result array1 :=
  if negb ((s =? 0)%Z || (s =? 1)%Z) then Raise regime_not_supported
  else Ok (if (s =? 0)%Z then params1 else params2).

Definition _var (s : Z) (var1 var2 : float64) : result float64 :=
  if negb ((s =? 0)%Z || (s =? 1)%Z) then Raise regime_not_supported
  else Ok (if (s =? 0)%Z then var1 else var2).

Definition _normpdf (s : Z) (xt : array1) (yt : float64) (guess : array1) : M float64 :=
  let params1 := Py.slice guess None (Some 4%Z) in
  let params2 := Py.slice guess (Some 4%Z) (Some (-2)%Z) in
  beta <- lift (_beta s (Py.slice params1 None (Some 2%Z))
                        (Py.slice params1 (Some 2%Z) None)) ;;
  var1 <- lift (Py.getitem params2 0%Z) ;;
  var2 <- lift (Py.getitem params2 1%Z) ;;
  var <- lift (_var s var1 var2) ;;
  put (fun st => mkSelf (degree st) (regime st) (fit_intercept st)
                        (Some beta) (Some var) (Some xt) (Some yt)) ;;;
  xb <- lift (dot xt beta) ;;
  let exponent := fmul (fsub yt xb) (fsub yt xb) in
  let exponent := fdiv exponent (fmul (Finite (-2)) var) in
  let denom := fsqrt (fmul (fmul (Finite 2) (Finite PI)) var) in
  ret (fdiv exponent denom).

Definition set2 (A : array2) (i j : nat) (v : float64) : array2 :=
  Py.update A i (Py.update (nth i A []) j v).

Definition _transition_matrix (pii pjj : float64) : array2 :=
  let transition_matrix := repeat (repeat zero 2) 2 in
  let transition_matrix := set2 transition_matrix 0 0 pii in
  let transition_matrix := set2 transition_matrix 0 1 (fsub (Finite 1) pii) in
  let transition_matrix := set2 transition_matrix 1 1 pjj in
  let transition_matrix := set2 transition_matrix 1 0 (fsub (Finite 1) pjj) in
  transition_matrix.

(** The arrays local to one call of [_loglikelihood]. *)
Record locals : Type := mkLocals {
  hfilter : array2;
  eta_t : array2;
  predictions : array2;
  densities : array1;
  cond_density : array1
}.

(** One pass of the body of [for t in range(1, n_samples)]. *)
Definition filter_step (X : array2) (y : array1) (theta : array1) (P : array2)
    (t : nat) (L : locals) : M locals :=
  let tz := Z.of_nat t in
  pred <- lift (Py.getitem (predictions L) (tz - 1)%Z) ;;
  eta <- lift (Py.getitem (eta_t L) tz) ;;
  let exponent := mul pred eta in
  let loglik := sum exponent in
  cond_density' <- lift (Py.setitem (cond_density L) tz loglik) ;;
  hfilter' <- lift (setrow (hfilter L) tz (div_scalar exponent loglik)) ;;
  hft <- lift (Py.getitem hfilter' tz) ;;
  Ph <- lift (matvec P hft) ;;
  predictions' <- lift (setrow (predictions L) tz Ph) ;;
  xt <- lift (Py.getitem X tz) ;;
  yt <- lift (Py.getitem y tz) ;;
  d0 <- _normpdf 0 xt yt theta ;;
  densities' <- lift (Py.setitem (densities L) 0%Z d0) ;;
  xt <- lift (Py.getitem X tz) ;;
  yt <- lift (Py.getitem y tz) ;;
  d1 <- _normpdf 1 xt yt theta ;;
  densities' <- lift (Py.setitem densities' 1%Z d1) ;;
  eta_t' <- lift (setrow (eta_t L) tz densities') ;;
  ret (mkLocals hfilter' eta_t' predictions' densities' cond_density').

(** The body of [_loglikelihood] up to its [return]: the local arrays as
    they stand after the loop. *)
Definition _loglikelihood_locals (X : array2) (y : array1) (theta : array1) : M locals :=
  let n_samples := length X in
  k <- get regime ;;
  hfilter <- lift (zeros2 n_samples k) ;;
  eta_t <- lift (zeros2 n_samples k) ;;
  predictions <- lift (zeros2 n_samples k) ;;
  pp <- lift (Py.unpack2 (_sigmoid (Py.slice theta (Some (-2)%Z) None))) ;;
  let P := _transition_matrix (fst pp) (snd pp) in
  let ones := [[Finite 1]; [Finite 1]] in
  let A := concatenate (sub_broadcast_col ones P) (transpose ones) in
  b <- lift (zeros (k + 1)) ;;
  b <- lift (Py.setitem b (-1)%Z (Finite 1)) ;;
  h0 <- lift (_linear_solve A b) ;;
  hfilter <- lift (setrow hfilter 0%Z h0) ;;
  hf0 <- lift (Py.getitem hfilter 0%Z) ;;
  Ph <- lift (matvec P hf0) ;;
  predictions <- lift (setrow predictions 0%Z Ph) ;;
  densities <- lift (zeros k) ;;
  let cond_density := repeat zero n_samples in
  x0 <- lift (Py.getitem X 0%Z) ;;
  y0 <- lift (Py.getitem y 0%Z) ;;
  d0 <- _normpdf 0 x0 y0 theta ;;
  densities <- lift (Py.setitem densities 0%Z d0) ;;
  x0 <- lift (Py.getitem X 0%Z) ;;
  y0 <- lift (Py.getitem y 0%Z) ;;
  d1 <- _normpdf 1 x0 y0 theta ;;
  densities <- lift (Py.setitem densities 1%Z d1) ;;
  eta_t <- lift (setrow eta_t 0%Z densities) ;;
  for_each (seq 1 (n_samples - 1)) (filter_step X y theta P)
           (mkLocals hfilter eta_t predictions densities cond_density).

Definition _loglikelihood (X : array2) (y : array1) (theta : array1) : M float64 :=
  L <- _loglikelihood_locals X y theta ;;
  ret (mean (log (cond_density L))).

Definition _objective_func (guess : array1) (X : array2) (y : array1) : M float64 :=
  f <- _loglikelihood X y guess ;;
  ret (fneg f).

(** *** Attribute lookup

    [self.name(...)] first finds [name] in the instance's attributes or
    in the class body, then calls what it found. *)

Inductive attribute : Type :=
| Method (name : string)
| Field (name : string).

(** The [def]s of the class body, in source order. *)
Definition class_dict : list string :=
  ["__init__"; "_sigmoid"; "_make_polynomial"; "_linear_solve"; "_beta";
   "_var"; "_normpdf"; "_loglikelihood"; "_objective_func";
   "_transition_matrix"; "fit"]%string.

Definition present {A : Type} (o : option A) (name : string) : list string :=
  match o with Some _ => [name] | None => [] end.

Definition instance_dict (st : self) : list string :=
  List.concat
    [ ["degree"%string; "regime"%string; "fit_intercept"%string];
      present (attr_beta st) "beta"; present (attr_var st) "var";
      present (attr_xt st) "xt"; present (attr_yt st) "yt" ].

Definition getattr (name : string) : M attribute :=
  fun st =>
    if existsb (String.eqb name) (instance_dict st) then (Ok (Field name), st)
    else if existsb (String.eqb name) class_dict then (Ok (Method name), st)
    else (Raise (AttributeError name), st).

(** What [fit] returns. *)
Inductive value : Type :=
| VFloat (v : float64)
| VArray2 (a : array2).

(** [f(X, y, params)] for an attribute [f]: the two methods that take a
    design matrix, a response and a parameter vector run; a call with the
    wrong arguments, or of a field, is a [TypeError]. *)
Definition call3 (f : attribute) (X : array2) (y params : array1) : M value :=
  match f with
  | Method name =>
      if String.eqb name "_loglikelihood" then
        v <- _loglikelihood X y params ;; ret (VFloat v)
      else raise (TypeError name)
  | Field name => raise (TypeError name)
  end.

Section Fit.

(** [PolynomialFeatures(degree=d, include_bias=b).fit_transform(X)] of
    scikit-learn, external to the repository. *)
Variable fit_transform : Z -> bool -> array2 -> result array2.

Definition _make_polynomial (X : array2) : M array2 :=
  bias <- get fit_intercept ;;
  degree <- get degree ;;
  lift (fit_transform degree bias X).

Definition fit (X : array2) (y : array1) : M value :=
  let p_features := length (hd [] X) in
  X <- _make_polynomial X ;;
  bias <- get fit_intercept ;;
  r <- get regime ;;
  let k := (2 * ((if bias then 1 else 0) + Z.of_nat p_features) * r)%Z in
  let params := [Finite (2 / 10); Finite (3 / 10); Finite (4 / 10); Finite (6 / 10);
                 var_ddof1 y; var_ddof1 (concat X);
                 Finite (5 / 10); Finite (5 / 10)] in
  f <- getattr "_filtered_probabalities" ;;
  prob <- call3 f X y params ;;
  ret prob.

End Fit.

(** ** The transition matrix builder in [float64] arithmetic

    [_sigmoid] and [_transition_matrix] once more, with the rounding that
    the exact reals of [NumPy.float64] leave out.

    In [Rounded] a [float64] is a real, an infinity or nan, and every
    operation rounds its exact result once: [round] maps a real to the
    [float64] that stands for it (an infinity where it overflows), and
    [np_exp] is NumPy's exponential at a finite argument.  Both are
    parameters, constrained in the statements by [Rounded.ieee].  Zero has
    no sign: a zero divisor is read as [+0.0].

    In [Binary64] a [float64] is a primitive IEEE-754 binary64 number and
    the operations are the machine's; the exponential is a parameter,
    constrained by [Binary64.exp_out_of_range]. *)

Module Rounded.

Inductive binary64 : Type :=
| Fin (r : R)
| PInf
| NInf
| NaN.

(** [a <= b], false when either is nan. *)
Definition le (a b : binary64) : Prop :=
  match a, b with
  | NaN, _ | _, NaN => False
  | NInf, _ | _, PInf => True
  | Fin x, Fin y => x <= y
  | _, _ => False
  end.

Section Arithmetic.

Variable round : R -> binary64.
Variable np_exp : R -> binary64.

Definition fneg (a : binary64) : binary64 :=
  match a with
  | Fin x => Fin (- x)
  | PInf => NInf
  | NInf => PInf
  | NaN => NaN
  end.

Definition fadd (a b : binary64) : binary64 :=
  match a, b with
  | NaN, _ | _, NaN => NaN
  | Fin x, Fin y => round (x + y)
  | PInf, NInf | NInf, PInf => NaN
  | PInf, _ | _, PInf => PInf
  | NInf, _ | _, NInf => NInf
  end.

Definition fsub (a b : binary64) : binary64 := fadd a (fneg b).

Definition fdiv (a b : binary64) : binary64 :=
  match a, b with
  | NaN, _ | _, NaN => NaN
  | Fin x, Fin y =>
      if Req_dec_T y 0 then
        if Req_dec_T x 0 then NaN else if Rlt_dec 0 x then PInf else NInf
      else round (x / y)
  | Fin _, _ => Fin 0
  | _, Fin y => if Rle_dec 0 y then a else fneg a
  | _, _ => NaN
  end.

Definition fexp (a : binary64) : binary64 :=
  match a with
  | Fin x => np_exp x
  | PInf => PInf
  | NInf => Fin 0
  | NaN => NaN
  end.

(** [1.0 / (1 + np.exp(-z))], elementwise. *)
Definition _sigmoid (z : list binary64) : list binary64 :=
  map (fun x => fdiv (Fin 1) (fadd (Fin 1) (fexp (fneg x)))) z.

Definition set2 (A : list (list binary64)) (i j : nat) (v : binary64) : list (list binary64) :=
  Py.update A i (Py.update (nth i A []) j v).

Definition _transition_matrix (pii pjj : binary64) : list (list binary64) :=
  let transition_matrix := repeat (repeat (Fin 0) 2) 2 in
  let transition_matrix := set2 transition_matrix 0 0 pii in
  let transition_matrix := set2 transition_matrix 0 1 (fsub (Fin 1) pii) in
  let transition_matrix := set2 transition_matrix 1 1 pjj in
  let transition_matrix := set2 transition_matrix 1 0 (fsub (Fin 1) pjj) in
  transition_matrix.

(** What the statements ask of the arithmetic, all of it true of IEEE-754
    binary64 with rounding to nearest and [u = 2^-54]: rounding is
    monotone and never nan, 0 and 1 are [float64] numbers, a real between 0
    and 1 is rounded to a number at most [u] away, and the exponential of
    a finite number is not negative and not nan (it may be [+inf]). *)
Definition ieee (u : R) : Prop :=
  (forall x y : R, x <= y -> le (round x) (round y))
  /\ round 0 = Fin 0
  /\ round 1 = Fin 1
  /\ (forall x r : R, 0 <= x <= 1 -> round x = Fin r -> Rabs (r - x) <= u)
  /\ (forall x : R, le (Fin 0) (np_exp x)).

End Arithmetic.

End Rounded.

Module Binary64.

Local Open Scope float_scope.

(** [1.0 / (1 + np.exp(-z))], elementwise. *)
Definition _sigmoid (np_exp : float -> float) (z : list float) : list float :=
  map (fun x => 1 / (1 + np_exp (- x))) z.

Definition set2 (A : list (list float)) (i j : nat) (v : float) : list (list float) :=
  Py.update A i (Py.update (nth i A []) j v).

Definition _transition_matrix (pii pjj : float) : list (list float) :=
  let transition_matrix := repeat (repeat 0 2) 2 in
  let transition_matrix := set2 transition_matrix 0 0 pii in
  let transition_matrix := set2 transition_matrix 0 1 (1 - pii) in
  let transition_matrix := set2 transition_matrix 1 1 pjj in
  let transition_matrix := set2 transition_matrix 1 0 (1 - pjj) in
  transition_matrix.

(** The exponential outside the range of [float64]: [e^710] is above the
    largest [float64] and [e^-746] below half the smallest, so that every
    implementation returns [+inf] from 710 on and 0 up to -746. *)
Definition exp_out_of_range (np_exp : float -> float) : Prop :=
  (forall x : float, (710 <=? x) = true -> np_exp x = infinity)
  /\ (forall x : float, (x <=? -746) = true -> np_exp x = 0).

(** An exponential that is exact out of range and crude within. *)
Definition exp_by_range (x : float) : float :=
  if 710 <=? x then infinity else if x <=? -746 then 0 else 1.

(** Two logits of large magnitude. *)
Definition saturating_logits : list float := [800; -800].

End Binary64.

(** ** Vocabulary of the statements *)

(** The coefficients and the variance that [_normpdf] takes from a
    parameter vector of at least eight entries: [guess[0:2]] or
    [guess[2:4]], and [guess[4]] or [guess[5]]. *)
Definition beta_of (s : Z) (guess : array1) : array1 :=
  firstn 2 (skipn (if (s =? 0)%Z then 0 else 2) guess).

Definition var_of (s : Z) (guess : array1) : float64 :=
  nth (if (s =? 0)%Z then 4 else 5) guess zero.

(** The expression that [_normpdf] returns, from [xt @ beta], the response
    and the variance. *)
Definition density_expr (xb yt var : float64) : float64 :=
  fdiv (fdiv (fmul (fsub yt xb) (fsub yt xb)) (fmul (Finite (-2)) var))
       (fsqrt (fmul (fmul (Finite 2) (Finite PI)) var)).

(** The instance after the four attribute writes of [_normpdf]. *)
Definition wrote (st : self) (beta : array1) (var : float64) (xt : array1) (yt : float64) : self :=
  mkSelf (degree st) (regime st) (fit_intercept st) (Some beta) (Some var) (Some xt) (Some yt).

(** The value of [_normpdf] where it returns one. *)
Definition normpdf_value (s : Z) (xt : array1) (yt : float64) (guess : array1) : float64 :=
  match dot xt (beta_of s guess) with
  | Ok xb => density_expr xb yt (var_of s guess)
  | Raise _ => NonFinite
  end.

(** The two densities that the filter computes for observation [t]. *)
Definition density_row (X : array2) (y : array1) (theta : array1) (t : nat) : array1 :=
  [normpdf_value 0 (nth t X []) (nth t y zero) theta;
   normpdf_value 1 (nth t X []) (nth t y zero) theta].

(** A row of a freshly allocated array, and a row of nan. *)
Definition zero_row : array1 := [zero; zero].
Definition nan_row : array1 := [NonFinite; NonFinite].

(** The transition matrix with stay probabilities [p] and [q]. *)
Definition stochastic (p q : R) : array2 :=
  [[Finite p; Finite (1 - p)]; [Finite (1 - q); Finite q]].

(** The weight that the loop forms from a prediction row [a; b] and a
    row of [eta_t] that is still zero, and the weights that follow it. *)
Definition zero_weight (a b : float64) : float64 := sum (mul [a; b] zero_row).

Definition weights (a b : float64) (m : nat) : array1 :=
  match m with
  | O => []
  | S m' => zero_weight a b :: repeat NonFinite m'
  end.

(** The logistic function on the reals. *)
Definition sigmoid (z : R) : R := 1 / (1 + exp (- z)).

(** The solution of the normal equations of the seeding system, for stay
    probabilities [p] and [q]: [seed_det] is the determinant of [A.T @ A]. *)
Definition seed_det (p q : R) : R :=
  (1 - p - q) * (1 - p - q) + (1 - 2 * p) * (1 - 2 * p) + (2 * q - 1) * (2 * q - 1).

Definition seed0 (p q : R) : R :=
  (p * (2 * p - 1) + (1 - q) * (1 - 2 * q)) / seed_det p q.

Definition seed1 (p q : R) : R :=
  ((1 - p) * (1 - 2 * p) + q * (2 * q - 1)) / seed_det p q.

(** [P @ h] for the seed [h]. *)
Definition seed_prediction0 (p q : R) : R := p * seed0 p q + (1 - p) * seed1 p q.
Definition seed_prediction1 (p q : R) : R := (1 - q) * seed0 p q + q * seed1 p q.

(** The matrix and right-hand side that [_loglikelihood] hands to
    [_linear_solve]. *)
Definition seed_matrix (p q : R) : array2 :=
  concatenate (sub_broadcast_col [[Finite 1]; [Finite 1]] (stochastic p q))
              (transpose [[Finite 1]; [Finite 1]]).

Definition seed_rhs : array1 := [zero; zero; Finite 1].

(** Two instances with the same constructor arguments, and a computation
    whose result depends on nothing else and that leaves them alone. *)
Definition same_config (st st' : self) : Prop :=
  degree st = degree st' /\ regime st = regime st' /\ fit_intercept st = fit_intercept st'.

Definition stable {A : Type} (m : M A) : Prop :=
  (forall st, same_config st (snd (m st)))
  /\ (forall st st', same_config st st' -> fst (m st) = fst (m st')).

(** The Gaussian density of [y] with mean [m] and variance [v]. *)
Definition gaussian_density (y m v : R) : R :=
  exp (- ((y - m) * (y - m)) / (2 * v)) / sqrt (2 * PI * v).


(** A computation that raises from every instance. *)
Definition never_returns {A : Type} (m : M A) : Prop :=
  forall st : self, exists e : exn, fst (m st) = Raise e.

(** The instance after [m] passes of the loop that start at time [t]. *)
Definition last_write (st : self) (X : array2) (y theta : array1) (t m : nat) : self :=
  match m with
  | O => st
  | S _ => wrote st (beta_of 1 theta) (var_of 1 theta)
                 (nth (t + m - 1) X []) (nth (t + m - 1) y zero)
  end.

(** Two instances with the same number of regimes, and a computation whose
    result depends on nothing else in the instance and that keeps it. *)
Definition same_regime (st st' : self) : Prop := regime st = regime st'.

Definition reads_only_regime {A : Type} (m : M A) : Prop :=
  (forall st, same_regime st (snd (m st)))
  /\ (forall st st', same_regime st st' -> fst (m st) = fst (m st')).

(** Two states of the filter's arrays that agree on all that the loop
    reads from time [t] on: the filtered probabilities, the predictions,
    the conditional densities, and the rows of [eta_t] from [t]. *)
Definition same_filter (t : nat) (L1 L2 : locals) : Prop :=
  hfilter L1 = hfilter L2
  /\ predictions L1 = predictions L2
  /\ cond_density L1 = cond_density L2
  /\ skipn t (eta_t L1) = skipn t (eta_t L2).

(** ** Concrete inputs *)

(** The instance that [MarkovSwitchingRegression()] builds. *)
Definition default_instance : self := __init__ 1 2 true.

(** The starting point of [fit] with a zero regime-0 variance. *)
Definition theta_zero_variance : array1 :=
  [Finite (2 / 10); Finite (3 / 10); Finite (4 / 10); Finite (6 / 10);
   Finite 0; Finite 1; Finite (5 / 10); Finite (5 / 10)].

(** A parameter vector with one entry more than the documented eight. *)
Definition theta_nine : array1 :=
  [Finite (2 / 10); Finite (3 / 10); Finite (4 / 10); Finite (6 / 10);
   Finite 1; Finite 1; Finite 0; Finite (5 / 10); Finite (5 / 10)].

(** The starting point of [fit], with unit variances. *)
Definition theta_start : array1 :=
  [Finite (2 / 10); Finite (3 / 10); Finite (4 / 10); Finite (6 / 10);
   Finite 1; Finite 1; Finite (5 / 10); Finite (5 / 10)].

(** Three observations of an intercept and one feature. *)
Definition X_three : array2 :=
  [[Finite 1; Finite 1]; [Finite 1; Finite 2]; [Finite 1; Finite 3]].

Definition y_three : array1 := [Finite 1; Finite 2; Finite 3].

(** Two more data sets of three observations, and a response with one
    entry too few. *)
Definition X_other : array2 :=
  [[Finite 1; Finite 5]; [Finite 1; Finite 8]; [Finite 1; Finite 13]].

Definition y_other : array1 := [Finite 21; Finite 34; Finite 55].

Definition y_two : array1 := [Finite 1; Finite 2].

(** A parameter vector with other coefficients and variances than
    [theta_start], and the same logits. *)
Definition theta_other : array1 :=
  [Finite 1; Finite 2; Finite 3; Finite 4; Finite 5; Finite 6;
   Finite (5 / 10); Finite (5 / 10)].

(** An instance built with three regimes. *)
Definition three_regimes : self := __init__ 1 3 true.

(** * Properties *)

(** ** Arithmetic of [float64] *)

Lemma fdiv_finite (x y : R) : y <> 0 -> fdiv (Finite x) (Finite y) = Finite (x / y).
Proof.
  intros Hy. unfold fdiv. destruct (Req_dec_T y 0) as [E | _]; [contradiction | reflexivity].
Qed.

Lemma fdiv_by_zero (x y : R) : y = 0 -> fdiv (Finite x) (Finite y) = NonFinite.
Proof.
  intros Hy. unfold fdiv. destruct (Req_dec_T y 0) as [_ | N]; [reflexivity | contradiction].
Qed.

Lemma fdiv_nonfinite_l (b : float64) : fdiv NonFinite b = NonFinite.
Proof. reflexivity. Qed.

Lemma fdiv_nonfinite_r (a : float64) : fdiv a NonFinite = NonFinite.
Proof. destruct a; reflexivity. Qed.

Lemma fsqrt_nonneg (x : R) : 0 <= x -> fsqrt (Finite x) = Finite (sqrt x).
Proof.
  intros Hx. unfold fsqrt. destruct (Rlt_dec x 0) as [L | _]; [lra | reflexivity].
Qed.

Lemma fsqrt_negative (x : R) : x < 0 -> fsqrt (Finite x) = NonFinite.
Proof.
  intros Hx. unfold fsqrt. destruct (Rlt_dec x 0) as [_ | N]; [reflexivity | contradiction].
Qed.

Lemma flog_zero : flog (Finite 0) = NonFinite.
Proof. unfold flog. destruct (Rle_dec 0 0) as [_ | N]; [reflexivity | lra]. Qed.

(** ** Slices and indices *)

Lemma firstn_min_length {A : Type} (k : nat) (l : list A) :
  firstn (Nat.min k (length l)) l = firstn k l.
Proof.
  destruct (Nat.le_gt_cases k (length l)) as [H | H].
  - now rewrite Nat.min_l.
  - rewrite Nat.min_r by lia. rewrite firstn_all, firstn_all2 by lia. reflexivity.
Qed.

Lemma skipn_min_length {A : Type} (k : nat) (l : list A) :
  skipn (Nat.min k (length l)) l = skipn k l.
Proof.
  destruct (Nat.le_gt_cases k (length l)) as [H | H].
  - now rewrite Nat.min_l.
  - rewrite Nat.min_r by lia. rewrite skipn_all, skipn_all2 by lia. reflexivity.
Qed.

Lemma slice_bound_nonneg (len : nat) (k : nat) :
  Py.slice_bound len (Z.of_nat k) = Nat.min k len.
Proof.
  unfold Py.slice_bound. destruct (Z.ltb_spec (Z.of_nat k) 0); lia.
Qed.

Lemma slice_bound_neg (len : nat) (k : nat) :
  (0 < k)%nat -> Py.slice_bound len (- Z.of_nat k)%Z = (len - k)%nat.
Proof.
  intros Hk. unfold Py.slice_bound. destruct (Z.ltb_spec (- Z.of_nat k)%Z 0); lia.
Qed.

Lemma slice_prefix {A : Type} (l : list A) (k : nat) :
  Py.slice l None (Some (Z.of_nat k)) = firstn k l.
Proof.
  unfold Py.slice. rewrite slice_bound_nonneg, Nat.sub_0_r. simpl skipn.
  apply firstn_min_length.
Qed.

Lemma slice_suffix {A : Type} (l : list A) (k : nat) :
  Py.slice l (Some (Z.of_nat k)) None = skipn k l.
Proof.
  unfold Py.slice. rewrite slice_bound_nonneg, skipn_min_length.
  apply firstn_all2. rewrite length_skipn. lia.
Qed.

Lemma slice_between {A : Type} (l : list A) (a b : nat) :
  (0 < b)%nat ->
  Py.slice l (Some (Z.of_nat a)) (Some (- Z.of_nat b)%Z) =
  firstn (length l - b - a) (skipn a l).
Proof.
  intros Hb. unfold Py.slice. rewrite slice_bound_nonneg, slice_bound_neg by assumption.
  rewrite skipn_min_length.
  destruct (Nat.le_gt_cases a (length l)) as [H | H].
  - now rewrite Nat.min_l.
  - rewrite Nat.min_r by lia. now replace (length l - b - length l)%nat with (length l - b - a)%nat by lia.
Qed.

Lemma getitem_nth {A : Type} (l : list A) (k : nat) (d : A) :
  (k < length l)%nat -> Py.getitem l (Z.of_nat k) = Ok (nth k l d).
Proof.
  intros Hk. unfold Py.getitem, Py.norm_index.
  destruct (Z.leb_spec 0 (Z.of_nat k)); [| lia].
  destruct (Z.ltb_spec (Z.of_nat k) (Z.of_nat (length l))); [| lia].
  simpl. rewrite Nat2Z.id.
  destruct (nth_error l k) eqn:E.
  - now rewrite (nth_error_nth _ _ d E).
  - apply nth_error_None in E. lia.
Qed.

Lemma getitem_out_of_range {A : Type} (l : list A) (k : nat) :
  (length l <= k)%nat -> Py.getitem l (Z.of_nat k) = Raise (IndexError "index out of bounds").
Proof.
  intros Hk. unfold Py.getitem, Py.norm_index.
  destruct (Z.leb_spec 0 (Z.of_nat k)); [| lia].
  destruct (Z.ltb_spec (Z.of_nat k) (Z.of_nat (length l))); [lia |].
  simpl. destruct (Z.leb_spec (- Z.of_nat (length l))%Z (Z.of_nat k)); simpl.
  - destruct (Z.ltb_spec (Z.of_nat k) 0); [lia | reflexivity].
  - reflexivity.
Qed.

(** ** The regime density evaluator *)

Lemma params1_lo (guess : array1) :
  Py.slice (Py.slice guess None (Some 4%Z)) None (Some 2%Z) = firstn 2 guess.
Proof.
  change 4%Z with (Z.of_nat 4). change 2%Z with (Z.of_nat 2).
  rewrite !slice_prefix, firstn_firstn. reflexivity.
Qed.

Lemma params1_hi (guess : array1) :
  Py.slice (Py.slice guess None (Some 4%Z)) (Some 2%Z) None = firstn 2 (skipn 2 guess).
Proof.
  change 4%Z with (Z.of_nat 4). change 2%Z with (Z.of_nat 2).
  rewrite slice_prefix, slice_suffix.
  destruct guess as [| a [| b l]]; try reflexivity.
Qed.

Lemma params2_0 (guess : array1) :
  Py.getitem (Py.slice guess (Some 4%Z) (Some (-2)%Z)) 0%Z =
  if (7 <=? length guess)%nat then Ok (nth 4 guess zero)
  else Raise (IndexError "index out of bounds").
Proof.
  change 4%Z with (Z.of_nat 4). change (-2)%Z with (- Z.of_nat 2)%Z.
  rewrite slice_between by lia. change 0%Z with (Z.of_nat 0).
  destruct (Nat.leb_spec 7 (length guess)) as [H | H].
  - rewrite (getitem_nth _ _ zero) by (rewrite length_firstn, length_skipn; lia).
    rewrite nth_firstn, nth_skipn.
    destruct (Nat.ltb_spec 0 (length guess - 2 - 4)); [reflexivity | lia].
  - apply getitem_out_of_range. rewrite length_firstn, length_skipn. lia.
Qed.

Lemma params2_1 (guess : array1) :
  Py.getitem (Py.slice guess (Some 4%Z) (Some (-2)%Z)) 1%Z =
  if (8 <=? length guess)%nat then Ok (nth 5 guess zero)
  else Raise (IndexError "index out of bounds").
Proof.
  change 4%Z with (Z.of_nat 4). change (-2)%Z with (- Z.of_nat 2)%Z.
  rewrite slice_between by lia. change 1%Z with (Z.of_nat 1).
  destruct (Nat.leb_spec 8 (length guess)) as [H | H].
  - rewrite (getitem_nth _ _ zero) by (rewrite length_firstn, length_skipn; lia).
    rewrite nth_firstn, nth_skipn.
    destruct (Nat.ltb_spec 1 (length guess - 2 - 4)); [reflexivity | lia].
  - apply getitem_out_of_range. rewrite length_firstn, length_skipn. lia.
Qed.

Lemma normpdf_run (s : Z) (xt : array1) (yt : float64) (guess : array1) (st : self) :
  (s = 0 \/ s = 1)%Z -> (8 <= length guess)%nat ->
  _normpdf s xt yt guess st =
  match dot xt (beta_of s guess) with
  | Ok xb => (Ok (density_expr xb yt (var_of s guess)),
              wrote st (beta_of s guess) (var_of s guess) xt yt)
  | Raise e => (Raise e, wrote st (beta_of s guess) (var_of s guess) xt yt)
  end.
Proof.
  intros Hs Hlen. unfold _normpdf.
  rewrite params1_lo, params1_hi.
  unfold bind, lift at 2 3. rewrite params2_0, params2_1.
  destruct (Nat.leb_spec 7 (length guess)); [| lia].
  destruct (Nat.leb_spec 8 (length guess)); [| lia].
  unfold beta_of, var_of, wrote, density_expr.
  destruct Hs as [-> | ->]; simpl; destruct (dot xt _); reflexivity.
Qed.

Lemma dot_two (x0 x1 b0 b1 : R) :
  dot [Finite x0; Finite x1] [Finite b0; Finite b1] = Ok (Finite (x0 * b0 + (x1 * b1 + 0))).
Proof. reflexivity. Qed.

Lemma length_beta_of (s : Z) (guess : array1) :
  (8 <= length guess)%nat -> length (beta_of s guess) = 2%nat.
Proof.
  intros H. unfold beta_of. rewrite length_firstn, length_skipn.
  destruct (s =? 0)%Z; lia.
Qed.

Lemma dot_defined (u v : array1) : is_ok (dot u v) <-> length u = length v.
Proof.
  unfold dot, is_ok. destruct (Nat.eqb_spec (length u) (length v)) as [E | N]; split.
  - intros _. exact E.
  - intros _. eexists. reflexivity.
  - intros [a Ha]. discriminate Ha.
  - intros E. contradiction.
Qed.

Lemma density_expr_nonpositive_variance (xb yt : float64) (v : R) :
  v <= 0 -> density_expr xb yt (Finite v) = NonFinite.
Proof.
  intros Hv. unfold density_expr.
  change (fmul (Finite (-2)) (Finite v)) with (Finite (-2 * v)).
  change (fmul (fmul (Finite 2) (Finite PI)) (Finite v)) with (Finite (2 * PI * v)).
  destruct (Rle_lt_or_eq_dec v 0 Hv) as [Hneg | Hzero].
  - rewrite fsqrt_negative.
    + apply fdiv_nonfinite_r.
    + assert (0 < PI) by apply PI_RGT_0. nra.
  - destruct (fmul (fsub yt xb) (fsub yt xb)) as [e |].
    + rewrite fdiv_by_zero by (subst v; lra). reflexivity.
    + reflexivity.
Qed.

(** With two features and at least eight parameters the evaluator returns. *)
Lemma normpdf_returns (s : Z) (xt : array1) (yt : float64) (guess : array1) (st : self) :
  (s = 0 \/ s = 1)%Z -> length xt = 2%nat -> (8 <= length guess)%nat ->
  _normpdf s xt yt guess st
  = (Ok (normpdf_value s xt yt guess), wrote st (beta_of s guess) (var_of s guess) xt yt).
Proof.
  intros Hs Hx Hlen. rewrite normpdf_run by assumption. unfold normpdf_value.
  destruct (proj2 (dot_defined xt (beta_of s guess))) as [xb ->]; [| reflexivity].
  now rewrite length_beta_of.
Qed.

(** C3 (as the code has it).  For a regime in {0, 1}, a row of two
    finite features, a finite response and a positive regime variance,
    [_normpdf] returns the squared residual divided by [-2 * var] and by
    [sqrt (2 * pi * var)]: the exponent of the Gaussian density, never
    exponentiated.  That value is at most zero, while the Gaussian density
    of the claim is positive, so the two differ on every such input. *)
Theorem normpdf_is_not_the_gaussian_density
    (s : Z) (x0 x1 y b0 b1 v : R) (guess : array1) (st : self) :
  (s = 0 \/ s = 1)%Z -> (8 <= length guess)%nat ->
  beta_of s guess = [Finite b0; Finite b1] -> var_of s guess = Finite v -> 0 < v ->
  let r := y - (x0 * b0 + x1 * b1) in
  fst (_normpdf s [Finite x0; Finite x1] (Finite y) guess st)
    = Ok (Finite (r * r / (-2 * v) / sqrt (2 * PI * v)))
  /\ r * r / (-2 * v) / sqrt (2 * PI * v) <= 0
  /\ 0 < gaussian_density y (x0 * b0 + x1 * b1) v.
Proof.
  intros Hs Hlen Hb Hv Hpos r.
  assert (Hpi : 0 < PI) by apply PI_RGT_0.
  assert (Hden : 0 < sqrt (2 * PI * v)) by (apply sqrt_lt_R0; nra).
  split; [| split].
  - rewrite normpdf_run by assumption. rewrite Hb, Hv, dot_two. simpl fst.
    unfold density_expr. simpl fsub. simpl fmul.
    rewrite fdiv_finite by lra.
    rewrite fsqrt_nonneg by nra.
    rewrite fdiv_finite by lra.
    do 2 f_equal. subst r. f_equal. f_equal; ring.
  - assert (Hnum : r * r / (-2 * v) <= 0).
    { apply Rmult_le_reg_r with (2 * v); [lra |]. field_simplify; [| lra]. nra. }
    apply Rmult_le_reg_r with (sqrt (2 * PI * v)); [assumption |].
    unfold Rdiv at 1. rewrite Rmult_assoc, Rinv_l by lra. lra.
  - unfold gaussian_density. apply Rdiv_lt_0_compat; [apply exp_pos | assumption].
Qed.

Lemma normpdf_is_not_the_gaussian_density_witness :
  let r := 1 - (1 * (2 / 10) + 1 * (3 / 10)) in
  fst (_normpdf 0 [Finite 1; Finite 1] (Finite 1) theta_start default_instance)
    = Ok (Finite (r * r / (-2 * 1) / sqrt (2 * PI * 1)))
  /\ r * r / (-2 * 1) / sqrt (2 * PI * 1) <= 0
  /\ 0 < gaussian_density 1 (1 * (2 / 10) + 1 * (3 / 10)) 1.
Proof.
  apply (normpdf_is_not_the_gaussian_density 0 1 1 1 (2 / 10) (3 / 10) 1
           theta_start default_instance).
  - left; reflexivity.
  - simpl; lia.
  - reflexivity.
  - reflexivity.
  - lra.
Defined.

Lemma normpdf_bad_regime (s : Z) (xt : array1) (yt : float64) (guess : array1) (st : self) :
  (s <> 0 /\ s <> 1)%Z -> _normpdf s xt yt guess st = (Raise regime_not_supported, st).
Proof.
  intros [H0 H1]. unfold _normpdf, bind, lift, _beta.
  destruct (Z.eqb_spec s 0); [contradiction |].
  destruct (Z.eqb_spec s 1); [contradiction |]. reflexivity.
Qed.

Lemma normpdf_short_guess (s : Z) (xt : array1) (yt : float64) (guess : array1) (st : self) :
  (s = 0 \/ s = 1)%Z -> (length guess < 8)%nat ->
  _normpdf s xt yt guess st = (Raise (IndexError "index out of bounds"), st).
Proof.
  intros Hs Hlen. unfold _normpdf.
  unfold bind, lift at 1 2 3. rewrite params2_0, params2_1.
  destruct (Nat.leb_spec 8 (length guess)); [lia |].
  assert (Hb : exists b, _beta s (Py.slice (Py.slice guess None (Some 4%Z)) None (Some 2%Z))
                    (Py.slice (Py.slice guess None (Some 4%Z)) (Some 2%Z) None) = Ok b).
  { destruct Hs as [-> | ->]; eexists; reflexivity. }
  destruct Hb as [b ->].
  destruct (7 <=? length guess)%nat; reflexivity.
Qed.

(** C8.  [_normpdf] raises [ValueError("state regime not supported")]
    exactly when the regime index is neither 0 nor 1, whatever the
    observation, the parameter vector and the instance. *)
Theorem normpdf_regime_error_iff
    (s : Z) (xt : array1) (yt : float64) (guess : array1) (st : self) :
  fst (_normpdf s xt yt guess st) = Raise regime_not_supported <-> ~ (s = 0 \/ s = 1)%Z.
Proof.
  split.
  - intros Hraise Hs.
    destruct (Nat.le_gt_cases 8 (length guess)) as [Hlen | Hlen].
    + rewrite normpdf_run in Hraise by assumption.
      unfold dot in Hraise.
      destruct (Nat.eqb (length xt) (length (beta_of s guess))); discriminate Hraise.
    + rewrite normpdf_short_guess in Hraise by assumption. discriminate Hraise.
  - intros Hs. rewrite normpdf_bad_regime by lia. reflexivity.
Qed.

(** C7 (amended).  For a regime in {0, 1}, a row of two features and a
    parameter vector of at least eight entries, a regime variance that is
    zero or negative is not rejected: [_normpdf] raises nothing and returns
    a non-finite value (nan or an infinity). *)
Theorem normpdf_nonpositive_variance_not_rejected
    (s : Z) (xt : array1) (yt : float64) (guess : array1) (st : self) (v : R) :
  (s = 0 \/ s = 1)%Z -> length xt = 2%nat -> (8 <= length guess)%nat ->
  var_of s guess = Finite v -> v <= 0 ->
  fst (_normpdf s xt yt guess st) = Ok NonFinite.
Proof.
  intros Hs Hx Hlen Hv Hneg.
  rewrite normpdf_run by assumption.
  destruct (proj2 (dot_defined xt (beta_of s guess))) as [xb ->].
  { now rewrite length_beta_of. }
  simpl. rewrite Hv. f_equal. now apply density_expr_nonpositive_variance.
Qed.

Lemma normpdf_nonpositive_variance_not_rejected_witness :
  fst (_normpdf 0 [Finite 1; Finite 1] (Finite 1) theta_zero_variance default_instance)
  = Ok NonFinite.
Proof.
  apply (normpdf_nonpositive_variance_not_rejected 0 _ _ theta_zero_variance _ 0).
  - left; reflexivity.
  - reflexivity.
  - simpl; lia.
  - reflexivity.
  - lra.
Defined.

(** C7 (counterexample).  With a zero regime-0 variance in the starting
    point of [fit], [_normpdf] raises no exception at all. *)
Lemma normpdf_zero_variance_raises_nothing :
  ~ exists e : exn,
      fst (_normpdf 0 [Finite 1; Finite 1] (Finite 1) theta_zero_variance default_instance)
      = Raise e.
Proof.
  intros [e He].
  rewrite normpdf_returns in He by (try (left; reflexivity); try reflexivity; simpl; lia).
  discriminate He.
Qed.

(** C10 (amended).  For a regime in {0, 1}, [_normpdf] returns a value
    exactly when the design row has 2 entries and the parameter vector has
    at least 8; it then takes the coefficients from [theta[0:2]] (regime 0)
    or [theta[2:4]] (regime 1) and the variance from [theta[4]] or
    [theta[5]], as the attributes it writes show. *)
Theorem normpdf_defined_iff_two_features
    (s : Z) (xt : array1) (yt : float64) (guess : array1) (st : self) :
  (s = 0 \/ s = 1)%Z ->
  (is_ok (fst (_normpdf s xt yt guess st)) <-> length xt = 2%nat /\ (8 <= length guess)%nat)
  /\ ((8 <= length guess)%nat ->
      attr_beta (snd (_normpdf s xt yt guess st)) = Some (beta_of s guess)
      /\ attr_var (snd (_normpdf s xt yt guess st)) = Some (var_of s guess)).
Proof.
  intros Hs. split.
  - destruct (Nat.le_gt_cases 8 (length guess)) as [Hlen | Hlen].
    + rewrite normpdf_run by assumption.
      pose proof (dot_defined xt (beta_of s guess)) as Hd.
      rewrite length_beta_of in Hd by assumption.
      destruct (dot xt (beta_of s guess)) as [xb | e]; simpl; split.
      * intros _. split; [apply Hd; eexists; reflexivity | assumption].
      * intros _. eexists; reflexivity.
      * intros [a Ha]; discriminate Ha.
      * intros [Hx _]. apply Hd in Hx. destruct Hx as [a Ha]; discriminate Ha.
    + rewrite normpdf_short_guess by assumption. simpl. split.
      * intros [a Ha]; discriminate Ha.
      * intros [_ H8]. lia.
  - intros Hlen. rewrite normpdf_run by assumption.
    destruct (dot xt (beta_of s guess)); split; reflexivity.
Qed.

Lemma normpdf_defined_iff_two_features_witness :
  (is_ok (fst (_normpdf 1 [Finite 1; Finite 1] (Finite 1) theta_nine default_instance))
     <-> length [Finite 1; Finite 1] = 2%nat /\ (8 <= length theta_nine)%nat)
  /\ ((8 <= length theta_nine)%nat ->
      attr_beta (snd (_normpdf 1 [Finite 1; Finite 1] (Finite 1) theta_nine default_instance))
        = Some (beta_of 1 theta_nine)
      /\ attr_var (snd (_normpdf 1 [Finite 1; Finite 1] (Finite 1) theta_nine default_instance))
        = Some (var_of 1 theta_nine)).
Proof.
  apply (normpdf_defined_iff_two_features 1). right; reflexivity.
Defined.

(** C10 (counterexample).  A parameter vector of nine entries gives a
    well-defined density, so a defined evaluation does not force length 8. *)
Lemma normpdf_defined_with_nine_parameters :
  ~ (is_ok (fst (_normpdf 0 [Finite 1; Finite 1] (Finite 1) theta_nine default_instance))
     -> length [Finite 1; Finite 1] = 2%nat /\ length theta_nine = 8%nat).
Proof.
  intros H.
  assert (Hok : is_ok (fst (_normpdf 0 [Finite 1; Finite 1] (Finite 1) theta_nine
                               default_instance))).
  { rewrite normpdf_run by (try (left; reflexivity); simpl; lia).
    eexists. reflexivity. }
  destruct (H Hok) as [_ Hlen]. discriminate Hlen.
Qed.

(** ** The transition matrix builder *)


Lemma sigmoid_finite (z : R) :
  fdiv (Finite 1) (fadd (Finite 1) (fexp (fneg (Finite z)))) = Finite (1 / (1 + exp (- z))).
Proof.
  simpl fneg. simpl fexp. simpl fadd. apply fdiv_finite.
  pose proof (exp_pos (- z)). lra.
Qed.

Lemma rounded_unit_interval (round np_exp : R -> Rounded.binary64) (u x : R) :
  Rounded.ieee round np_exp u -> 0 <= x <= 1 ->
  exists r : R, round x = Rounded.Fin r /\ 0 <= r <= 1 /\ Rabs (r - x) <= u.
Proof.
  intros (Hmono & H0 & H1 & Herr & _) Hx.
  pose proof (Hmono 0 x (proj1 Hx)) as Hlo. pose proof (Hmono x 1 (proj2 Hx)) as Hhi.
  rewrite H0 in Hlo. rewrite H1 in Hhi.
  destruct (round x) as [r | | |] eqn:E; simpl in Hlo, Hhi; try contradiction.
  exists r. split; [reflexivity |]. split; [lra |]. now apply Herr.
Qed.

Lemma rounded_sigmoid (round np_exp : R -> Rounded.binary64) (u z : R) :
  Rounded.ieee round np_exp u ->
  exists p : R,
    Rounded.fdiv round (Rounded.Fin 1)
      (Rounded.fadd round (Rounded.Fin 1) (Rounded.fexp np_exp (Rounded.fneg (Rounded.Fin z))))
    = Rounded.Fin p
    /\ 0 <= p <= 1.
Proof.
  intros Hieee. pose proof Hieee as (Hmono & H0 & H1 & _ & Hexp).
  cbn [Rounded.fneg Rounded.fexp].
  pose proof (Hexp (- z)) as He.
  destruct (np_exp (- z)) as [e | | |]; simpl in He; try contradiction.
  - cbn [Rounded.fadd].
    pose proof (Hmono 1 (1 + e) ltac:(lra)) as Hs. rewrite H1 in Hs.
    destruct (round (1 + e)) as [s | | |]; simpl in Hs; try contradiction.
    + cbn [Rounded.fdiv]. destruct (Req_dec_T s 0) as [E | _]; [lra |].
      assert (Hq : 0 <= 1 / s <= 1).
      { split.
        - apply Rlt_le, Rdiv_lt_0_compat; lra.
        - apply Rmult_le_reg_r with s; [lra |].
          unfold Rdiv. rewrite Rmult_assoc, Rinv_l by lra. lra. }
      destruct (rounded_unit_interval round np_exp u (1 / s) Hieee Hq) as (p & Hp & Hr & _).
      exists p. split; assumption.
    + exists 0. split; [reflexivity | lra].
  - exists 0. split; [reflexivity | lra].
Qed.

(** C6 (as the code has it).  In [float64] arithmetic the sigmoid of a
    real logit is a probability in the closed interval from 0 to 1, and
    [_transition_matrix] returns exactly [[pii, 1 - pii], [1 - pjj, pjj]]
    with each difference rounded once: every entry is between 0 and 1,
    bounds included, and the two entries of a row sum to 1 up to the
    rounding error [u] of that subtraction. *)
Theorem sigmoid_transition_matrix_in_closed_unit_interval
    (round np_exp : R -> Rounded.binary64) (u z1 z2 : R) :
  Rounded.ieee round np_exp u ->
  exists pii pjj nii njj : R,
    Rounded._sigmoid round np_exp [Rounded.Fin z1; Rounded.Fin z2]
    = [Rounded.Fin pii; Rounded.Fin pjj]
    /\ (0 <= pii <= 1 /\ 0 <= pjj <= 1)
    /\ Rounded._transition_matrix round (Rounded.Fin pii) (Rounded.Fin pjj)
       = [[Rounded.Fin pii; Rounded.fsub round (Rounded.Fin 1) (Rounded.Fin pii)];
          [Rounded.fsub round (Rounded.Fin 1) (Rounded.Fin pjj); Rounded.Fin pjj]]
    /\ Rounded._transition_matrix round (Rounded.Fin pii) (Rounded.Fin pjj)
       = [[Rounded.Fin pii; Rounded.Fin nii]; [Rounded.Fin njj; Rounded.Fin pjj]]
    /\ (0 <= nii <= 1 /\ 0 <= njj <= 1)
    /\ Rabs (pii + nii - 1) <= u
    /\ Rabs (njj + pjj - 1) <= u.
Proof.
  intros Hieee.
  destruct (rounded_sigmoid round np_exp u z1 Hieee) as (pii & Hpii & Hi).
  destruct (rounded_sigmoid round np_exp u z2 Hieee) as (pjj & Hpjj & Hj).
  destruct (rounded_unit_interval round np_exp u (1 - pii) Hieee ltac:(lra))
    as (nii & Hnii & Hni & Hei).
  destruct (rounded_unit_interval round np_exp u (1 - pjj) Hieee ltac:(lra))
    as (njj & Hnjj & Hnj & Hej).
  assert (HP : Rounded._transition_matrix round (Rounded.Fin pii) (Rounded.Fin pjj)
               = [[Rounded.Fin pii; Rounded.fsub round (Rounded.Fin 1) (Rounded.Fin pii)];
                  [Rounded.fsub round (Rounded.Fin 1) (Rounded.Fin pjj); Rounded.Fin pjj]])
    by reflexivity.
  exists pii, pjj, nii, njj.
  split; [| split; [| split; [| split; [| split; [| split]]]]].
  - unfold Rounded._sigmoid. cbn [map]. now rewrite Hpii, Hpjj.
  - split; assumption.
  - exact HP.
  - rewrite HP. unfold Rounded.fsub. cbn [Rounded.fneg Rounded.fadd].
    change (1 + - pii) with (1 - pii). change (1 + - pjj) with (1 - pjj).
    now rewrite Hnii, Hnjj.
  - split; assumption.
  - replace (pii + nii - 1) with (nii - (1 - pii)) by ring. exact Hei.
  - replace (njj + pjj - 1) with (njj - (1 - pjj)) by ring. exact Hej.
Qed.

Lemma sigmoid_transition_matrix_in_closed_unit_interval_witness :
  Rounded.ieee Rounded.Fin (fun x => Rounded.Fin (exp x)) 0
  /\ exists pii pjj nii njj : R,
       Rounded._sigmoid Rounded.Fin (fun x => Rounded.Fin (exp x))
         [Rounded.Fin (5 / 10); Rounded.Fin (5 / 10)]
       = [Rounded.Fin pii; Rounded.Fin pjj]
       /\ (0 <= pii <= 1 /\ 0 <= pjj <= 1)
       /\ Rounded._transition_matrix Rounded.Fin (Rounded.Fin pii) (Rounded.Fin pjj)
          = [[Rounded.Fin pii; Rounded.fsub Rounded.Fin (Rounded.Fin 1) (Rounded.Fin pii)];
             [Rounded.fsub Rounded.Fin (Rounded.Fin 1) (Rounded.Fin pjj); Rounded.Fin pjj]]
       /\ Rounded._transition_matrix Rounded.Fin (Rounded.Fin pii) (Rounded.Fin pjj)
          = [[Rounded.Fin pii; Rounded.Fin nii]; [Rounded.Fin njj; Rounded.Fin pjj]]
       /\ (0 <= nii <= 1 /\ 0 <= njj <= 1)
       /\ Rabs (pii + nii - 1) <= 0
       /\ Rabs (njj + pjj - 1) <= 0.
Proof.
  assert (H : Rounded.ieee Rounded.Fin (fun x => Rounded.Fin (exp x)) 0).
  { repeat split.
    - intros x y Hxy. exact Hxy.
    - intros x r Hx E. injection E as <-.
      replace (x - x) with 0 by ring. rewrite Rabs_R0. lra.
    - intros x. simpl. left. apply exp_pos. }
  split; [exact H |].
  exact (sigmoid_transition_matrix_in_closed_unit_interval
           Rounded.Fin (fun x => Rounded.Fin (exp x)) 0 (5 / 10) (5 / 10) H).
Defined.

(** No [float64] is both at least 710 and at most -746. *)
Lemma binary64_ranges_apart (x : float) :
  (710 <=? x)%float = true -> (x <=? -746)%float = false.
Proof.
  rewrite !leb_spec.
  assert (Hp : exists m e, Prim2SF 710 = S754_finite false m e) by (vm_compute; eauto).
  assert (Hn : exists m e, Prim2SF (-746) = S754_finite true m e) by (vm_compute; eauto).
  destruct Hp as (mp & ep & ->). destruct Hn as (mn & en & ->).
  destruct (Prim2SF x) as [s | s | | s m e]; try destruct s;
    unfold SFleb, SFcompare; intros H; try discriminate H; reflexivity.
Qed.

(** C6, the claim as it was stated.  In binary64 the sigmoid saturates:
    at the logits 800 and -800 it returns exactly 1.0 and exactly 0.0,
    for every exponential that overflows and underflows as binary64
    requires (there is one), and the transition matrix built from the two
    is [[1, 0], [1, 0]], with no entry strictly between 0 and 1. *)
Lemma sigmoid_saturates_in_binary64 :
  Binary64.exp_out_of_range Binary64.exp_by_range
  /\ (forall np_exp : float -> float,
        Binary64.exp_out_of_range np_exp ->
        Binary64._sigmoid np_exp Binary64.saturating_logits = [1%float; 0%float])
  /\ Binary64._transition_matrix 1%float 0%float
     = [[1%float; 0%float]; [1%float; 0%float]].
Proof.
  split; [| split].
  - split; intros x Hx; unfold Binary64.exp_by_range.
    + now rewrite Hx.
    + destruct (710 <=? x)%float eqn:E.
      * apply binary64_ranges_apart in E. congruence.
      * now rewrite Hx.
  - intros np_exp [Hover Hunder]. unfold Binary64._sigmoid, Binary64.saturating_logits.
    cbn [map]. rewrite Hunder by reflexivity. rewrite Hover by reflexivity. reflexivity.
  - reflexivity.
Qed.

(** ** The fit driver *)

Lemma getattr_filtered_probabalities (st : self) :
  getattr "_filtered_probabalities" st = (Raise (AttributeError "_filtered_probabalities"), st).
Proof.
  destruct st as [d r f [b |] [v |] [x |] [y |]]; reflexivity.
Qed.

(** C2 (as the code has it).  [fit] returns on no input: it propagates
    the error of the feature expansion when that fails, and otherwise
    raises [AttributeError] at the lookup of [_filtered_probabalities],
    a name that neither the class nor the instance defines.  No minimiser
    is called and no fitted model is produced. *)
Theorem fit_raises_on_every_input
    (fit_transform : Z -> bool -> array2 -> result array2)
    (X : array2) (y : array1) (st : self) :
  fst (fit fit_transform X y st)
  = match fit_transform (degree st) (fit_intercept st) X with
    | Ok _ => Raise (AttributeError "_filtered_probabalities")
    | Raise e => Raise e
    end
  /\ exists e : exn, fst (fit fit_transform X y st) = Raise e.
Proof.
  assert (H : fst (fit fit_transform X y st)
              = match fit_transform (degree st) (fit_intercept st) X with
                | Ok _ => Raise (AttributeError "_filtered_probabalities")
                | Raise e => Raise e
                end).
  { unfold fit, _make_polynomial, bind, get, lift.
    destruct (fit_transform (degree st) (fit_intercept st) X) as [X' | e].
    - rewrite getattr_filtered_probabalities. reflexivity.
    - reflexivity. }
  split; [exact H |].
  rewrite H. destruct (fit_transform (degree st) (fit_intercept st) X); eexists; reflexivity.
Qed.

(** ** Instance attributes do not leak into results *)

Lemma same_config_refl (st : self) : same_config st st.
Proof. repeat split. Qed.

Lemma same_config_sym (st st' : self) : same_config st st' -> same_config st' st.
Proof. intros (H1 & H2 & H3). repeat split; congruence. Qed.

Lemma same_config_trans (a b c : self) :
  same_config a b -> same_config b c -> same_config a c.
Proof. intros (H1 & H2 & H3) (K1 & K2 & K3). repeat split; congruence. Qed.

Lemma stable_ret {A : Type} (a : A) : stable (ret a).
Proof. split; intros; [apply same_config_refl | reflexivity]. Qed.

Lemma stable_raise {A : Type} (e : exn) : stable (@raise A e).
Proof. split; intros; [apply same_config_refl | reflexivity]. Qed.

Lemma stable_lift {A : Type} (r : result A) : stable (lift r).
Proof. split; intros; [apply same_config_refl | reflexivity]. Qed.

Lemma stable_get_regime : stable (get regime).
Proof.
  split; intros; [apply same_config_refl |].
  unfold get; simpl. f_equal. apply H.
Qed.

Lemma stable_bind {A B : Type} (m : M A) (k : A -> M B) :
  stable m -> (forall a, stable (k a)) -> stable (bind m k).
Proof.
  intros [Hm1 Hm2] Hk. split.
  - intros st. unfold bind. specialize (Hm1 st).
    destruct (m st) as [[a | e] st1]; simpl in *.
    + eapply same_config_trans; [exact Hm1 | apply (Hk a)].
    + exact Hm1.
  - intros st st' Hc. unfold bind.
    pose proof (Hm2 st st' Hc) as Hr.
    pose proof (Hm1 st) as H1. pose proof (Hm1 st') as H1'.
    destruct (m st) as [[a | e] st1], (m st') as [[a' | e'] st1']; simpl in *;
      try discriminate Hr.
    + injection Hr as <-. apply (Hk a).
      eapply same_config_trans; [apply same_config_sym; exact H1 |].
      eapply same_config_trans; [exact Hc | exact H1'].
    + injection Hr as <-. reflexivity.
Qed.

Lemma stable_write (beta : array1) (var : float64) (xt : array1) (yt : float64) :
  stable (put (fun st => mkSelf (degree st) (regime st) (fit_intercept st)
                                (Some beta) (Some var) (Some xt) (Some yt))).
Proof. split; intros; [repeat split | reflexivity]. Qed.

Ltac stable_step :=
  first [ apply stable_ret | apply stable_raise | apply stable_lift
        | apply stable_get_regime | apply stable_write
        | apply stable_bind; [| intros ? ] ].

Lemma stable_normpdf (s : Z) (xt : array1) (yt : float64) (guess : array1) :
  stable (_normpdf s xt yt guess).
Proof. unfold _normpdf. repeat stable_step. Qed.

Lemma stable_for_each {S : Type} (ts : list nat) (body : nat -> S -> M S) :
  (forall t L, stable (body t L)) -> forall L, stable (for_each ts body L).
Proof.
  intros Hb. induction ts as [| t ts IH]; intros L; simpl.
  - apply stable_ret.
  - apply stable_bind; [apply Hb | exact IH].
Qed.

Lemma stable_filter_step (X : array2) (y theta : array1) (P : array2) (t : nat) (L : locals) :
  stable (filter_step X y theta P t L).
Proof.
  unfold filter_step. repeat first [ apply stable_normpdf | stable_step ].
Qed.

Lemma stable_loglikelihood_locals (X : array2) (y theta : array1) :
  stable (_loglikelihood_locals X y theta).
Proof.
  unfold _loglikelihood_locals.
  repeat first [ apply stable_normpdf
               | apply stable_for_each; intros; apply stable_filter_step
               | stable_step ].
Qed.

Lemma stable_objective_func (guess : array1) (X : array2) (y : array1) :
  stable (_objective_func guess X y).
Proof.
  unfold _objective_func, _loglikelihood.
  repeat first [ apply stable_loglikelihood_locals | stable_step ].
Qed.

(** C9.  Evaluating the objective a second time on the instance left by
    a first evaluation gives the same result, and so does evaluating it on
    an instance whose [beta], [var], [xt] and [yt] attributes hold anything
    else: what [_normpdf] writes never reaches a later result. *)
Theorem objective_is_deterministic
    (theta : array1) (X : array2) (y : array1) (st : self) :
  fst (_objective_func theta X y (snd (_objective_func theta X y st)))
  = fst (_objective_func theta X y st)
  /\ forall (b : option array1) (v : option float64) (x : option array1) (w : option float64),
       fst (_objective_func theta X y
              (mkSelf (degree st) (regime st) (fit_intercept st) b v x w))
       = fst (_objective_func theta X y st).
Proof.
  destruct (stable_objective_func theta X y) as [Hkeep Hsame]. split.
  - symmetry. apply Hsame, Hkeep.
  - intros b v x w. apply Hsame. repeat split.
Qed.

(** ** The linear solver on the seeding system *)

Lemma cholesky_2x2 (a u d c : R) :
  0 < a -> 0 < c - d / sqrt a * (d / sqrt a) ->
  cholesky [[Finite a; Finite u]; [Finite d; Finite c]]
  = Ok [[Finite (sqrt a); zero];
        [Finite (d / sqrt a); Finite (sqrt (c - d / sqrt a * (d / sqrt a)))]].
Proof.
  intros Ha Hc.
  assert (Hs : sqrt a <> 0) by (apply Rgt_not_eq, sqrt_lt_R0; assumption).
  unfold cholesky. cbn -[Rle_dec fdiv].
  replace (a - 0) with a by ring.
  destruct (Rle_dec a 0) as [Hle | _]; [lra |].
  replace (d - 0) with d by ring.
  rewrite fdiv_finite by assumption. cbn -[Rle_dec].
  replace (d / sqrt a * (d / sqrt a) + 0) with (d / sqrt a * (d / sqrt a)) by ring.
  destruct (Rle_dec _ 0) as [Hle | _]; [lra |]. reflexivity.
Qed.

Lemma cholesky_2x2_singular (a u d c : R) :
  0 < a -> c - d / sqrt a * (d / sqrt a) <= 0 ->
  cholesky [[Finite a; Finite u]; [Finite d; Finite c]] = Raise not_pd.
Proof.
  intros Ha Hc.
  assert (Hs : sqrt a <> 0) by (apply Rgt_not_eq, sqrt_lt_R0; assumption).
  unfold cholesky. cbn -[Rle_dec fdiv].
  replace (a - 0) with a by ring.
  destruct (Rle_dec a 0) as [Hle | _]; [lra |].
  replace (d - 0) with d by ring.
  rewrite fdiv_finite by assumption. cbn -[Rle_dec].
  replace (d / sqrt a * (d / sqrt a) + 0) with (d / sqrt a * (d / sqrt a)) by ring.
  destruct (Rle_dec _ 0) as [_ | N]; [reflexivity | contradiction].
Qed.

Lemma solve_lower_2x2 (l11 l21 l22 r1 r2 : R) :
  l11 <> 0 -> l22 <> 0 ->
  solve_triangular [[Finite l11; zero]; [Finite l21; Finite l22]] [Finite r1; Finite r2] true
  = Ok [Finite (r1 / l11); Finite ((r2 - l21 * (r1 / l11)) / l22)].
Proof.
  intros H1 H2. unfold solve_triangular. cbn -[Req_dec_T fdiv].
  destruct (Req_dec_T l11 0) as [E | _]; [contradiction |].
  rewrite fdiv_finite by assumption. cbn -[Req_dec_T fdiv].
  destruct (Req_dec_T l22 0) as [E | _]; [contradiction |].
  rewrite fdiv_finite by assumption.
  do 3 f_equal; [f_equal; field; assumption |].
  f_equal. f_equal. field; try split; assumption.
Qed.

Lemma solve_upper_2x2 (l11 l21 l22 v1 v2 : R) :
  l11 <> 0 -> l22 <> 0 ->
  solve_triangular (transpose [[Finite l11; zero]; [Finite l21; Finite l22]])
                   [Finite v1; Finite v2] false
  = Ok [Finite ((v1 - l21 * (v2 / l22)) / l11); Finite (v2 / l22)].
Proof.
  intros H1 H2. unfold solve_triangular. cbn -[Req_dec_T fdiv].
  destruct (Req_dec_T l22 0) as [E | _]; [contradiction |].
  rewrite fdiv_finite by assumption. cbn -[Req_dec_T fdiv].
  destruct (Req_dec_T l11 0) as [E | _]; [contradiction |].
  rewrite fdiv_finite by assumption. cbn.
  do 3 f_equal; [f_equal; field; try split; assumption |].
  f_equal. f_equal. field; assumption.
Qed.

(** Equality of arrays of finite numbers, entry by entry. *)
Ltac arrays_eq :=
  repeat match goal with
         | |- Ok _ = Ok _ => f_equal
         | |- _ :: _ = _ :: _ => f_equal
         | |- Finite _ = Finite _ => f_equal
         end.

Lemma linear_solve_3x2 (a11 a12 a21 a22 a31 a32 b1 b2 b3 : R) :
  let a := a11 * a11 + a21 * a21 + a31 * a31 in
  let d := a11 * a12 + a21 * a22 + a31 * a32 in
  let c := a12 * a12 + a22 * a22 + a32 * a32 in
  let r1 := a11 * b1 + a21 * b2 + a31 * b3 in
  let r2 := a12 * b1 + a22 * b2 + a32 * b3 in
  0 < a * c - d * d ->
  _linear_solve [[Finite a11; Finite a12]; [Finite a21; Finite a22]; [Finite a31; Finite a32]]
                [Finite b1; Finite b2; Finite b3]
  = Ok [Finite ((c * r1 - d * r2) / (a * c - d * d));
        Finite ((a * r2 - d * r1) / (a * c - d * d))].
Proof.
  intros a d c r1 r2 Hdet.
  assert (Ha : 0 < a).
  { assert (0 <= a) by (subst a; nra). assert (0 <= c) by (subst c; nra).
    destruct (Req_dec a 0) as [E | N]; [| lra]. rewrite E in Hdet. nra. }
  set (s1 := sqrt a).
  assert (Hs1 : 0 < s1) by (apply sqrt_lt_R0; assumption).
  assert (Hs1sq : s1 * s1 = a) by (apply sqrt_sqrt; lra).
  assert (Hpiv : c - d / s1 * (d / s1) = (a * c - d * d) / a).
  { replace (d / s1 * (d / s1)) with (d * d / (s1 * s1)) by (field; lra).
    rewrite Hs1sq. field. lra. }
  assert (Hpivpos : 0 < c - d / s1 * (d / s1)).
  { rewrite Hpiv. apply Rdiv_lt_0_compat; assumption. }
  set (s2 := sqrt (c - d / s1 * (d / s1))).
  assert (Hs2 : 0 < s2) by (apply sqrt_lt_R0; assumption).
  assert (Hs2sq : s2 * s2 = (a * c - d * d) / a).
  { unfold s2. rewrite sqrt_sqrt by lra. exact Hpiv. }
  unfold _linear_solve.
  assert (HAtA : matmul (transpose [[Finite a11; Finite a12]; [Finite a21; Finite a22];
                                    [Finite a31; Finite a32]])
                   [[Finite a11; Finite a12]; [Finite a21; Finite a22]; [Finite a31; Finite a32]]
                 = Ok [[Finite a; Finite d]; [Finite d; Finite c]]).
  { cbn. subst a d c. arrays_eq; ring. }
  rewrite HAtA. cbn [rbind].
  rewrite cholesky_2x2 by assumption. cbn [rbind]. fold s1. fold s2.
  assert (HAtb : matvec (transpose [[Finite a11; Finite a12]; [Finite a21; Finite a22];
                                    [Finite a31; Finite a32]])
                   [Finite b1; Finite b2; Finite b3]
                 = Ok [Finite r1; Finite r2]).
  { cbn. subst r1 r2. arrays_eq; ring. }
  rewrite HAtb. cbn [rbind].
  rewrite solve_lower_2x2 by lra. cbn [rbind].
  rewrite solve_upper_2x2 by lra.
  assert (Hx2 : (r2 - d / s1 * (r1 / s1)) / s2 / s2 = (a * r2 - d * r1) / (a * c - d * d)).
  { replace ((r2 - d / s1 * (r1 / s1)) / s2 / s2)
      with ((r2 - d * r1 / (s1 * s1)) / (s2 * s2)) by (field; lra).
    rewrite Hs1sq, Hs2sq. field. lra. }
  rewrite Hx2.
  arrays_eq.
  replace ((r1 / s1 - d / s1 * ((a * r2 - d * r1) / (a * c - d * d))) / s1)
    with ((r1 - d * ((a * r2 - d * r1) / (a * c - d * d))) / (s1 * s1)) by (field; lra).
  rewrite Hs1sq. field. lra.
Qed.

(** ** Indexing at the end of a prefix *)

Lemma getitem_app_here {A : Type} (l1 l2 : list A) (x : A) (i : Z) :
  i = Z.of_nat (length l1) -> Py.getitem (l1 ++ x :: l2) i = Ok x.
Proof.
  intros ->. rewrite (getitem_nth _ _ x) by (rewrite length_app; simpl; lia).
  rewrite app_nth2 by lia. now rewrite Nat.sub_diag.
Qed.

Lemma update_app_here {A : Type} (l1 l2 : list A) (x v : A) :
  Py.update (l1 ++ x :: l2) (length l1) v = l1 ++ v :: l2.
Proof. induction l1 as [| a l1 IH]; simpl; [reflexivity | now rewrite IH]. Qed.

Lemma setitem_app_here {A : Type} (l1 l2 : list A) (x v : A) (i : Z) :
  i = Z.of_nat (length l1) -> Py.setitem (l1 ++ x :: l2) i v = Ok (l1 ++ v :: l2).
Proof.
  intros ->. unfold Py.setitem, Py.norm_index. rewrite length_app. simpl length.
  destruct (Z.leb_spec 0 (Z.of_nat (length l1))); [| lia].
  destruct (Z.ltb_spec (Z.of_nat (length l1)) (Z.of_nat (length l1 + S (length l2)))); [| lia].
  simpl. now rewrite Nat2Z.id, update_app_here.
Qed.

Lemma setrow_app_here (M1 M2 : array2) (x v : array1) (i : Z) :
  i = Z.of_nat (length M1) -> length v = length x ->
  setrow (M1 ++ x :: M2) i v = Ok (M1 ++ v :: M2).
Proof.
  intros Hi Hlen. unfold setrow. rewrite (getitem_app_here _ _ _ _ Hi). simpl rbind.
  rewrite Hlen, Nat.eqb_refl. now apply setitem_app_here.
Qed.

Lemma snoc_app {A : Type} (l1 l2 : list A) (x : A) : l1 ++ x :: l2 = (l1 ++ [x]) ++ l2.
Proof. now rewrite <- app_assoc. Qed.

(** ** The loop *)

Lemma zero_weight_division (a b : float64) :
  div_scalar (mul [a; b] zero_row) (zero_weight a b) = nan_row.
Proof.
  unfold zero_weight, div_scalar, mul, zero_row, sum, nan_row.
  destruct a as [x |], b as [w |]; cbn -[fdiv]; try reflexivity.
  rewrite !fdiv_by_zero by ring. reflexivity.
Qed.

Lemma zero_weight_finite (x w : R) : zero_weight (Finite x) (Finite w) = Finite 0.
Proof. unfold zero_weight, zero_row, mul, sum. cbn. f_equal. ring. Qed.

Lemma weights_nan (m : nat) : weights NonFinite NonFinite m = repeat NonFinite m.
Proof. destruct m; reflexivity. Qed.

Lemma filter_step_run (X : array2) (y theta : array1) (p q : R) (t : nat)
    (Hd Hrest Ed Erest Pd Prest : array2) (a b e0 e1 c : float64) (Cd Crest : array1)
    (st : self) :
  length Hd = t -> length Ed = t -> S (length Pd) = t -> length Cd = t ->
  (t < length X)%nat -> (t < length y)%nat -> length (nth t X []) = 2%nat ->
  (8 <= length theta)%nat ->
  exists st' : self,
    filter_step X y theta (stochastic p q) t
      (mkLocals (Hd ++ zero_row :: Hrest) (Ed ++ zero_row :: Erest)
                (Pd ++ [a; b] :: zero_row :: Prest) [e0; e1] (Cd ++ c :: Crest)) st
    = (Ok (mkLocals (Hd ++ nan_row :: Hrest) (Ed ++ density_row X y theta t :: Erest)
                    (Pd ++ [a; b] :: nan_row :: Prest) (density_row X y theta t)
                    (Cd ++ zero_weight a b :: Crest)), st')
    /\ same_config st st'.
Proof.
  intros HH HE HP HC HX Hy Hrow Hth.
  unfold filter_step. cbn [hfilter eta_t predictions densities cond_density].
  unfold bind at 1. unfold lift at 1.
  rewrite (getitem_app_here Pd _ [a; b]) by lia.
  unfold bind at 1. unfold lift at 1.
  rewrite (getitem_app_here Ed _ zero_row) by lia.
  unfold bind at 1. unfold lift at 1.
  rewrite (setitem_app_here Cd) by lia.
  unfold bind at 1. unfold lift at 1.
  fold (zero_weight a b). rewrite zero_weight_division.
  rewrite (setrow_app_here Hd) by (try reflexivity; lia).
  unfold bind at 1. unfold lift at 1.
  rewrite (getitem_app_here Hd _ nan_row) by lia.
  unfold bind at 1. unfold lift at 1.
  replace (matvec (stochastic p q) nan_row) with (Ok nan_row) by reflexivity.
  unfold bind at 1. unfold lift at 1.
  rewrite (snoc_app Pd).
  rewrite (setrow_app_here (Pd ++ [[a; b]])) by (try reflexivity; rewrite length_app; simpl; lia).
  rewrite <- (snoc_app Pd).
  unfold bind at 1. unfold lift at 1.
  rewrite (getitem_nth X t []) by assumption.
  unfold bind at 1. unfold lift at 1.
  rewrite (getitem_nth y t zero) by assumption.
  unfold bind at 1.
  rewrite normpdf_returns by (try assumption; left; reflexivity).
  unfold bind at 1. unfold lift at 1. cbn [Py.setitem Py.norm_index].
  replace (Py.setitem [e0; e1] 0%Z (normpdf_value 0 (nth t X []) (nth t y zero) theta))
    with (Ok [normpdf_value 0 (nth t X []) (nth t y zero) theta; e1]) by reflexivity.
  unfold bind at 1. unfold lift at 1.
  unfold bind at 1. unfold lift at 1.
  unfold bind at 1.
  rewrite normpdf_returns by (try assumption; right; reflexivity).
  unfold bind at 1. unfold lift at 1.
  replace (Py.setitem [normpdf_value 0 (nth t X []) (nth t y zero) theta; e1] 1%Z
                      (normpdf_value 1 (nth t X []) (nth t y zero) theta))
    with (Ok (density_row X y theta t)) by reflexivity.
  unfold bind at 1. unfold lift at 1.
  rewrite (setrow_app_here Ed) by (try reflexivity; lia).
  eexists. split; [reflexivity |]. repeat split.
Qed.

Lemma filter_loop_run (X : array2) (y theta : array1) (p q : R) :
  Forall (fun row => length row = 2%nat) X -> (8 <= length theta)%nat ->
  forall (m t : nat) (Hd Ed Pd : array2) (a b e0 e1 : float64) (Cd : array1) (st : self),
  length Hd = t -> length Ed = t -> S (length Pd) = t -> length Cd = t ->
  (t + m <= length X)%nat -> (t + m <= length y)%nat ->
  exists (L : locals) (st' : self),
    for_each (seq t m) (filter_step X y theta (stochastic p q))
      (mkLocals (Hd ++ repeat zero_row m) (Ed ++ repeat zero_row m)
                (Pd ++ [a; b] :: repeat zero_row m) [e0; e1] (Cd ++ repeat zero m)) st
    = (Ok L, st')
    /\ hfilter L = Hd ++ repeat nan_row m
    /\ eta_t L = Ed ++ map (density_row X y theta) (seq t m)
    /\ predictions L = Pd ++ [a; b] :: repeat nan_row m
    /\ cond_density L = Cd ++ weights a b m
    /\ same_config st st'.
Proof.
  intros HX Hth. induction m as [| m IH]; intros t Hd Ed Pd a b e0 e1 Cd st HH HE HP HC HtX Hty.
  - simpl. eexists. eexists. split; [reflexivity |]. simpl. repeat split.
  - assert (Hrow : length (nth t X []) = 2%nat).
    { rewrite Forall_forall in HX. apply HX, nth_In. lia. }
    cbn [seq for_each repeat].
    destruct (filter_step_run X y theta p q t Hd (repeat zero_row m) Ed (repeat zero_row m)
                Pd (repeat zero_row m) a b e0 e1 zero Cd (repeat zero m) st)
      as (st1 & Hstep & Hcfg); try assumption; try lia.
    unfold bind at 1. rewrite Hstep.
    rewrite (snoc_app Hd), (snoc_app Ed), (snoc_app Pd), (snoc_app Cd).
    destruct (IH (S t) (Hd ++ [nan_row]) (Ed ++ [density_row X y theta t]) (Pd ++ [[a; b]])
                 NonFinite NonFinite
                 (normpdf_value 0 (nth t X []) (nth t y zero) theta)
                 (normpdf_value 1 (nth t X []) (nth t y zero) theta)
                 (Cd ++ [zero_weight a b]) st1)
      as (L & st' & Hrun & HLh & HLe & HLp & HLc & Hcfg');
      try (rewrite length_app; simpl; lia); try lia.
    exists L, st'.
    split; [exact Hrun |].
    rewrite HLh, HLe, HLp, HLc, weights_nan, <- !snoc_app.
    repeat split; try reflexivity.
    + destruct Hcfg as (H1 & H2 & H3), Hcfg' as (K1 & K2 & K3); congruence.
    + destruct Hcfg as (H1 & H2 & H3), Hcfg' as (K1 & K2 & K3); congruence.
    + destruct Hcfg as (H1 & H2 & H3), Hcfg' as (K1 & K2 & K3); congruence.
Qed.

(** ** The seed of the filter *)


Lemma sigmoid_half (z : R) : sigmoid z = 1 / 2 -> z = 0.
Proof.
  unfold sigmoid. intros H. pose proof (exp_pos (- z)) as He.
  assert (E : exp (- z) = 1).
  { assert (H2 : 1 + exp (- z) = 2).
    { apply Rmult_eq_reg_l with (1 / (1 + exp (- z))).
      - unfold Rdiv at 1. rewrite Rmult_1_l, Rinv_l by lra. rewrite H. lra.
      - rewrite H. lra. }
    lra. }
  rewrite <- exp_0 in E. apply exp_inv in E. lra.
Qed.

Lemma sigmoid_pair (z1 z2 : R) :
  _sigmoid [Finite z1; Finite z2] = [Finite (sigmoid z1); Finite (sigmoid z2)].
Proof. unfold _sigmoid, sigmoid. cbn [map]. now rewrite !sigmoid_finite. Qed.

Lemma seed_det_positive (p q : R) : p <> 1 / 2 \/ q <> 1 / 2 -> 0 < seed_det p q.
Proof.
  intros H. unfold seed_det.
  pose proof (Rle_0_sqr (1 - p - q)) as H1.
  pose proof (Rle_0_sqr (1 - 2 * p)) as H2.
  pose proof (Rle_0_sqr (2 * q - 1)) as H3.
  unfold Rsqr in H1, H2, H3.
  destruct H as [H | H].
  - assert (H4 : 0 < Rsqr (1 - 2 * p)) by (apply Rsqr_pos_lt; lra). unfold Rsqr in H4. lra.
  - assert (H4 : 0 < Rsqr (2 * q - 1)) by (apply Rsqr_pos_lt; lra). unfold Rsqr in H4. lra.
Qed.

Lemma seed_solve (p q : R) :
  p <> 1 / 2 \/ q <> 1 / 2 ->
  _linear_solve (seed_matrix p q) seed_rhs = Ok [Finite (seed0 p q); Finite (seed1 p q)].
Proof.
  intros H. pose proof (seed_det_positive p q H) as Hdet.
  change (seed_matrix p q)
    with [[Finite (1 - p); Finite (1 - (1 - p))]; [Finite (1 - (1 - q)); Finite (1 - q)];
          [Finite 1; Finite 1]].
  unfold seed_rhs, zero.
  rewrite linear_solve_3x2.
  - unfold seed0, seed1. unfold seed_det in *. arrays_eq; field; lra.
  - unfold seed_det in Hdet. nra.
Qed.

Lemma seed_predict (p q : R) :
  matvec (stochastic p q) [Finite (seed0 p q); Finite (seed1 p q)]
  = Ok [Finite (seed_prediction0 p q); Finite (seed_prediction1 p q)].
Proof. cbn. unfold seed_prediction0, seed_prediction1. arrays_eq; ring. Qed.

Lemma getitem_head {A : Type} (x : A) (l : list A) : Py.getitem (x :: l) 0%Z = Ok x.
Proof. now apply (getitem_app_here [] l x). Qed.

Lemma setrow_head (x v : array1) (M : array2) :
  length v = length x -> setrow (x :: M) 0%Z v = Ok (v :: M).
Proof. intros H. now apply (setrow_app_here [] M x v). Qed.

(** With both logits zero the stay probabilities are both 1/2, the three
    rows of the seeding matrix are proportional and the factorisation
    fails. *)
Lemma seed_solve_singular :
  _linear_solve (seed_matrix (sigmoid 0) (sigmoid 0)) seed_rhs = Raise not_pd.
Proof.
  assert (E : sigmoid 0 = 1 / 2).
  { unfold sigmoid. rewrite Ropp_0, exp_0. lra. }
  rewrite E. unfold _linear_solve.
  assert (HAtA : matmul (transpose (seed_matrix (1 / 2) (1 / 2))) (seed_matrix (1 / 2) (1 / 2))
                 = Ok [[Finite (3 / 2); Finite (3 / 2)]; [Finite (3 / 2); Finite (3 / 2)]]).
  { cbn. arrays_eq; lra. }
  rewrite HAtA. cbn [rbind].
  rewrite cholesky_2x2_singular; [reflexivity | lra |].
  assert (Hs : 0 < sqrt (3 / 2)) by (apply sqrt_lt_R0; lra).
  replace (3 / 2 / sqrt (3 / 2) * (3 / 2 / sqrt (3 / 2)))
    with (3 / 2 * (3 / 2) / (sqrt (3 / 2) * sqrt (3 / 2))) by (field; lra).
  rewrite sqrt_sqrt by lra. lra.
Qed.

(** ** The whole filter *)

Lemma loglikelihood_locals_run
    (x0 : array1) (X' : array2) (y0 : float64) (y' : array1) (theta : array1)
    (z1 z2 : R) (st : self) :
  regime st = 2%Z ->
  Forall (fun row => length row = 2%nat) (x0 :: X') ->
  (length X' <= length y')%nat ->
  (8 <= length theta)%nat ->
  Py.slice theta (Some (-2)%Z) None = [Finite z1; Finite z2] ->
  z1 <> 0 \/ z2 <> 0 ->
  let X := x0 :: X' in
  let y := y0 :: y' in
  let p := sigmoid z1 in
  let q := sigmoid z2 in
  exists (L : locals) (st' : self),
    _loglikelihood_locals X y theta st = (Ok L, st')
    /\ hfilter L = [Finite (seed0 p q); Finite (seed1 p q)] :: repeat nan_row (length X')
    /\ eta_t L = map (density_row X y theta) (seq 0 (length X))
    /\ predictions L
       = [Finite (seed_prediction0 p q); Finite (seed_prediction1 p q)]
           :: repeat nan_row (length X')
    /\ cond_density L
       = zero :: weights (Finite (seed_prediction0 p q)) (Finite (seed_prediction1 p q))
                         (length X')
    /\ same_config st st'.
Proof.
  intros Hreg HX Hy Hth Hslice Hz X y p q.
  assert (Hpq : p <> 1 / 2 \/ q <> 1 / 2).
  { destruct Hz as [Hz | Hz]; [left | right]; intros E; apply Hz, sigmoid_half, E. }
  assert (Hx0 : length x0 = 2%nat) by (inversion HX; assumption).
  unfold _loglikelihood_locals. cbv zeta.
  unfold bind at 1. unfold get at 1. rewrite Hreg.
  replace (zeros2 (length X) 2) with (Ok (zero_row :: repeat zero_row (length X')))
    by reflexivity.
  do 3 (unfold bind at 1; unfold lift at 1).
  rewrite Hslice, sigmoid_pair. fold p q.
  unfold bind at 1. unfold lift at 1. cbn [Py.unpack2 fst snd].
  change (_transition_matrix (Finite p) (Finite q)) with (stochastic p q).
  fold (seed_matrix p q).
  replace (zeros (2 + 1)) with (Ok [zero; zero; zero]) by reflexivity.
  unfold bind at 1. unfold lift at 1.
  replace (Py.setitem [zero; zero; zero] (-1) (Finite 1)) with (Ok seed_rhs) by reflexivity.
  unfold bind at 1. unfold lift at 1.
  rewrite seed_solve by assumption.
  unfold bind at 1. unfold lift at 1.
  rewrite setrow_head by reflexivity.
  unfold bind at 1. unfold lift at 1.
  rewrite getitem_head.
  unfold bind at 1. unfold lift at 1.
  rewrite seed_predict.
  unfold bind at 1. unfold lift at 1.
  rewrite setrow_head by reflexivity.
  unfold bind at 1. unfold lift at 1.
  replace (zeros 2) with (Ok zero_row) by reflexivity.
  unfold bind at 1. unfold lift at 1.
  unfold X at 1 2, y at 1 2. rewrite !getitem_head.
  do 2 (unfold bind at 1; unfold lift at 1).
  unfold bind at 1. rewrite normpdf_returns by (try assumption; left; reflexivity).
  unfold bind at 1. unfold lift at 1.
  replace (Py.setitem zero_row 0%Z (normpdf_value 0 x0 y0 theta))
    with (Ok [normpdf_value 0 x0 y0 theta; zero]) by reflexivity.
  do 3 (unfold bind at 1; unfold lift at 1).
  unfold bind at 1. rewrite normpdf_returns by (try assumption; right; reflexivity).
  unfold bind at 1. unfold lift at 1.
  replace (Py.setitem [normpdf_value 0 x0 y0 theta; zero] 1%Z (normpdf_value 1 x0 y0 theta))
    with (Ok (density_row X y theta 0)) by reflexivity.
  rewrite setrow_head by reflexivity. cbv beta iota.
  replace (length X - 1)%nat with (length X') by (simpl; lia).
  replace (repeat zero (length X)) with (zero :: repeat zero (length X')) by reflexivity.
  destruct (filter_loop_run X y theta p q HX Hth (length X') 1
              [[Finite (seed0 p q); Finite (seed1 p q)]] [density_row X y theta 0] []
              (Finite (seed_prediction0 p q)) (Finite (seed_prediction1 p q))
              (normpdf_value 0 x0 y0 theta) (normpdf_value 1 x0 y0 theta) [zero]
              (wrote (wrote st (beta_of 0 theta) (var_of 0 theta) x0 y0)
                     (beta_of 1 theta) (var_of 1 theta) x0 y0))
    as (L & st' & Hrun & HLh & HLe & HLp & HLc & Hcfg);
    try reflexivity; try (simpl; lia).
  exists L, st'. split; [exact Hrun |].
  rewrite HLh, HLe, HLp, HLc. repeat split; try reflexivity; apply Hcfg.
Qed.

(** The filter on any well-shaped input, stated for a non-empty design
    matrix rather than for its head and tail. *)
Lemma hamilton_filter_run
    (X : list (list float64)) (y theta : list float64) (z1 z2 : R) (st : self) :
  regime st = 2%Z ->
  X <> [] ->
  Forall (fun row => length row = 2%nat) X ->
  (length X <= length y)%nat ->
  (8 <= length theta)%nat ->
  Py.slice theta (Some (-2)%Z) None = [Finite z1; Finite z2] ->
  z1 <> 0 \/ z2 <> 0 ->
  exists (L : locals) (st' : self),
    _loglikelihood_locals X y theta st = (Ok L, st')
    /\ hfilter L
       = [Finite (seed0 (sigmoid z1) (sigmoid z2)); Finite (seed1 (sigmoid z1) (sigmoid z2))]
           :: repeat nan_row (length X - 1)
    /\ eta_t L = map (density_row X y theta) (seq 0 (length X))
    /\ predictions L
       = [Finite (seed_prediction0 (sigmoid z1) (sigmoid z2));
          Finite (seed_prediction1 (sigmoid z1) (sigmoid z2))]
           :: repeat nan_row (length X - 1)
    /\ cond_density L
       = zero :: weights (Finite (seed_prediction0 (sigmoid z1) (sigmoid z2)))
                         (Finite (seed_prediction1 (sigmoid z1) (sigmoid z2)))
                         (length X - 1)
    /\ same_config st st'.
Proof.
  intros Hreg HX Hrows Hy Hth Hslice Hz.
  destruct X as [| x0 X']; [contradiction |].
  destruct y as [| y0 y']; [simpl in Hy; lia |].
  replace (length (x0 :: X') - 1)%nat with (length X') by (simpl; lia).
  apply loglikelihood_locals_run; try assumption. simpl in Hy. lia.
Qed.

Lemma nth_weights (a b : float64) (m t : nat) :
  (t < m)%nat -> nth t (weights a b m) zero = if (t =? 0)%nat then zero_weight a b else NonFinite.
Proof.
  intros H. destruct m as [| m]; [lia |]. destruct t as [| t]; simpl; [reflexivity |].
  rewrite nth_repeat_lt by lia. reflexivity.
Qed.

Lemma nth_map_seq {A : Type} (f : nat -> A) (n t : nat) (d : A) :
  (t < n)%nat -> nth t (map f (seq 0 n)) d = f t.
Proof.
  intros H. rewrite (nth_indep _ d (f 0%nat)) by (rewrite length_map, length_seq; lia).
  rewrite map_nth, seq_nth by lia. reflexivity.
Qed.

(** C1 (as the code has it).  On every input on which the filter runs
    (two regimes, a non-empty design matrix of two columns, a response at
    least as long, eight or more parameters, finite logits not both zero),
    [cond_density[t]] is 0 at [t = 1] and non-finite from [t = 2] on, and
    [hfilter[t]] is a row of nan, for every [t >= 1]: the weights are
    formed from the row [eta_t[t]] while it still holds zeros, and the
    densities of observation [t] are stored there only afterwards. *)
Theorem cond_density_ignores_the_densities
    (X : list (list float64)) (y theta : list float64) (z1 z2 : R) (st : self) :
  regime st = 2%Z ->
  X <> [] ->
  Forall (fun row => length row = 2%nat) X ->
  (length X <= length y)%nat ->
  (8 <= length theta)%nat ->
  Py.slice theta (Some (-2)%Z) None = [Finite z1; Finite z2] ->
  z1 <> 0 \/ z2 <> 0 ->
  exists (L : locals) (st' : self),
    _loglikelihood_locals X y theta st = (Ok L, st')
    /\ forall t : nat, (1 <= t < length X)%nat ->
         nth t (cond_density L) zero = (if (t =? 1)%nat then Finite 0 else NonFinite)
         /\ nth t (hfilter L) [] = nan_row
         /\ nth t (eta_t L) [] = density_row X y theta t.
Proof.
  intros Hreg HX Hrows Hy Hth Hslice Hz.
  destruct (hamilton_filter_run X y theta z1 z2 st Hreg HX Hrows Hy Hth Hslice Hz)
    as (L & st' & Hrun & HLh & HLe & HLp & HLc & _).
  exists L, st'. split; [exact Hrun |].
  intros t [Ht1 Ht2]. destruct t as [| t]; [lia |].
  rewrite HLc, HLh, HLe. split; [| split]; [cbn [nth] | cbn [nth] |].
  - rewrite nth_weights by lia. destruct t; [apply zero_weight_finite | reflexivity].
  - apply nth_repeat_lt. lia.
  - apply (nth_map_seq (density_row X y theta)). lia.
Qed.

Lemma cond_density_ignores_the_densities_witness :
  exists (L : locals) (st' : self),
    _loglikelihood_locals X_three y_three theta_start default_instance = (Ok L, st')
    /\ forall t : nat, (1 <= t < length X_three)%nat ->
         nth t (cond_density L) zero = (if (t =? 1)%nat then Finite 0 else NonFinite)
         /\ nth t (hfilter L) [] = nan_row
         /\ nth t (eta_t L) [] = density_row X_three y_three theta_start t.
Proof.
  apply (cond_density_ignores_the_densities X_three y_three theta_start (5 / 10) (5 / 10)).
  - reflexivity.
  - discriminate.
  - repeat constructor.
  - simpl; lia.
  - simpl; lia.
  - reflexivity.
  - left; lra.
Defined.

(** ** The seed is not a distribution *)



Lemma seed_equal_stay (p : R) : p <> 1 / 2 -> seed0 p p = 1 / 3 /\ seed1 p p = 1 / 3.
Proof.
  intros H. pose proof (seed_det_positive p p (or_introl H)) as Hdet.
  unfold seed0, seed1. unfold seed_det in *. split; field; lra.
Qed.









(** ** The filter on three observations *)

Lemma filter_on_three_observations :
  exists (L : locals) (st' : self),
    _loglikelihood_locals X_three y_three theta_start default_instance = (Ok L, st')
    /\ hfilter L = [[Finite (1 / 3); Finite (1 / 3)]; nan_row; nan_row]
    /\ predictions L = [[Finite (1 / 3); Finite (1 / 3)]; nan_row; nan_row]
    /\ cond_density L = [Finite 0; Finite 0; NonFinite].
Proof.
  destruct (hamilton_filter_run X_three y_three theta_start (5 / 10) (5 / 10) default_instance)
    as (L & st' & Hrun & HLh & _ & HLp & HLc & _);
    [reflexivity | discriminate | repeat constructor | simpl; lia | simpl; lia
    | reflexivity | left; lra |].
  assert (Hp : sigmoid (5 / 10) <> 1 / 2).
  { intros E. apply sigmoid_half in E. lra. }
  destruct (seed_equal_stay _ Hp) as [E0 E1].
  assert (P0 : seed_prediction0 (sigmoid (5 / 10)) (sigmoid (5 / 10)) = 1 / 3).
  { unfold seed_prediction0. rewrite E0, E1. field. }
  assert (P1 : seed_prediction1 (sigmoid (5 / 10)) (sigmoid (5 / 10)) = 1 / 3).
  { unfold seed_prediction1. rewrite E0, E1. field. }
  exists L, st'. split; [exact Hrun |].
  rewrite HLh, HLp, HLc, E0, E1, P0, P1. repeat split.
  cbn [length X_three Nat.sub weights repeat]. now rewrite zero_weight_finite.
Qed.

(** The conditional density of the second observation as the recursion
    defines it, from the code's own prediction row, is positive. *)
Lemma specified_cond_density_on_three_observations :
  0 < 1 / 3 * gaussian_density 2 (1 * (2 / 10) + 2 * (3 / 10)) 1
    + 1 / 3 * gaussian_density 2 (1 * (4 / 10) + 2 * (6 / 10)) 1.
Proof.
  assert (G : forall y m, 0 < gaussian_density y m 1).
  { intros y m. unfold gaussian_density. apply Rdiv_lt_0_compat; [apply exp_pos |].
    apply sqrt_lt_R0. pose proof PI_RGT_0. lra. }
  pose proof (G 2 (1 * (2 / 10) + 2 * (3 / 10))).
  pose proof (G 2 (1 * (4 / 10) + 2 * (6 / 10))). lra.
Qed.

(** * Further properties *)

(** ** A call that returns

    The theorems of this section and of the three that follow are read
    off the control flow, the indexing and the shapes of the arrays: which
    calls return, which raise, and what a call leaves behind.  None of
    them depends on a number that the arithmetic produces, so they hold
    whatever [np.exp], the factorisation and the rounding return.  Only
    the evaluations at concrete inputs, which show that a hypothesis can
    be met, use the values: they are at the logits that [fit] starts
    from. *)

Lemma bind_ok {A B : Type} (m : M A) (k : A -> M B) (st st' : self) (b : B) :
  bind m k st = (Ok b, st') ->
  exists (a : A) (st1 : self), m st = (Ok a, st1) /\ k a st1 = (Ok b, st').
Proof.
  unfold bind. destruct (m st) as [[a | e] st1]; intros H; [| discriminate H].
  exists a, st1. split; [reflexivity | exact H].
Qed.

Lemma lift_ok {A : Type} (r : result A) (st st' : self) (a : A) :
  lift r st = (Ok a, st') -> r = Ok a /\ st' = st.
Proof. unfold lift. intros H. injection H as H1 H2. split; [exact H1 | now symmetry]. Qed.

Lemma get_ok {A : Type} (f : self -> A) (st st' : self) (a : A) :
  get f st = (Ok a, st') -> a = f st /\ st' = st.
Proof. unfold get. intros H. injection H as H1 H2. split; now symmetry. Qed.

Lemma ret_ok {A : Type} (a b : A) (st st' : self) :
  ret a st = (Ok b, st') -> b = a /\ st' = st.
Proof. unfold ret. intros H. injection H as H1 H2. split; now symmetry. Qed.

Lemma rbind_ok {A B : Type} (m : result A) (k : A -> result B) (b : B) :
  rbind m k = Ok b -> exists a : A, m = Ok a /\ k a = Ok b.
Proof. destruct m as [a | e]; intros H; [| discriminate H]. exists a. now split. Qed.

(** One step of a run that returns: the first computation returned, and
    the rest ran from its result. *)
Ltac invert_bind H :=
  let a := fresh "a" in
  let st1 := fresh "st" in
  let Ha := fresh "Hrun" in
  apply bind_ok in H; destruct H as (a & st1 & Ha & H);
  lazymatch type of Ha with
  | lift _ _ = _ => apply lift_ok in Ha; destruct Ha as [Ha ->]
  | get _ _ = _ => apply get_ok in Ha; destruct Ha as [-> ->]
  | _ => idtac
  end.

Ltac invert_run H := repeat invert_bind H.

Lemma norm_index_nat (len t : nat) :
  Py.norm_index len (Z.of_nat t) = if (t <? len)%nat then Some t else None.
Proof.
  unfold Py.norm_index.
  destruct (Z.leb_spec 0 (Z.of_nat t)); [| lia].
  destruct (Nat.ltb_spec t len).
  - destruct (Z.ltb_spec (Z.of_nat t) (Z.of_nat len)); [| lia]. simpl. now rewrite Nat2Z.id.
  - destruct (Z.ltb_spec (Z.of_nat t) (Z.of_nat len)); [lia |]. simpl.
    destruct (Z.ltb_spec (Z.of_nat t) 0); [lia |]. now rewrite andb_false_r.
Qed.

Lemma getitem_ok_nat {A : Type} (l : list A) (t : nat) (a d : A) :
  Py.getitem l (Z.of_nat t) = Ok a -> (t < length l)%nat /\ nth t l d = a.
Proof.
  intros H. destruct (Nat.lt_ge_cases t (length l)) as [Hlt | Hge].
  - rewrite (getitem_nth l t d Hlt) in H. injection H as E. now split.
  - rewrite (getitem_out_of_range l t Hge) in H. discriminate H.
Qed.

Lemma setitem_ok_nat {A : Type} (l l' : list A) (t : nat) (v : A) :
  Py.setitem l (Z.of_nat t) v = Ok l' -> (t < length l)%nat /\ l' = Py.update l t v.
Proof.
  unfold Py.setitem. rewrite norm_index_nat.
  destruct (Nat.ltb_spec t (length l)) as [Hlt | Hge]; intros H; [| discriminate H].
  injection H as E. now split.
Qed.

Lemma length_update {A : Type} (l : list A) (k : nat) (v : A) :
  length (Py.update l k v) = length l.
Proof.
  revert k. induction l as [| a l IH]; intros [| k]; simpl; try reflexivity.
  now rewrite IH.
Qed.

Lemma setitem_ok_length {A : Type} (l l' : list A) (i : Z) (v : A) :
  Py.setitem l i v = Ok l' -> length l' = length l.
Proof.
  unfold Py.setitem. destruct (Py.norm_index (length l) i); intros H; [| discriminate H].
  injection H as <-. apply length_update.
Qed.

Lemma setrow_ok_nat (M M' : list (list float64)) (t : nat) (v : list float64) :
  setrow M (Z.of_nat t) v = Ok M' ->
  (t < length M)%nat /\ exists v' : list float64, M' = Py.update M t v'.
Proof.
  unfold setrow. intros H. apply rbind_ok in H. destruct H as (row & _ & H).
  destruct (length v =? length row)%nat.
  - apply setitem_ok_nat in H. destruct H as [Ht ->]. split; [exact Ht | now exists v].
  - destruct (length v =? 1)%nat; [| discriminate H].
    apply setitem_ok_nat in H. destruct H as [Ht ->]. split; [exact Ht | eauto].
Qed.

Lemma update_tail {A : Type} (a : A) (l : list A) (t : nat) (v : A) :
  (1 <= t)%nat -> exists l' : list A, Py.update (a :: l) t v = a :: l'.
Proof. intros Ht. destruct t as [| t]; [lia |]. simpl. eauto. Qed.

Lemma skipn_update {A : Type} (l : list A) (t : nat) (v : A) :
  skipn (S t) (Py.update l t v) = skipn (S t) l.
Proof.
  revert t. induction l as [| a l IH]; intros [| t]; try reflexivity.
  cbn [Py.update]. change (skipn (S (S t)) (a :: Py.update l t v)) with (skipn (S t) (Py.update l t v)).
  change (skipn (S (S t)) (a :: l)) with (skipn (S t) l). apply IH.
Qed.

Lemma skipn_succ {A : Type} (l : list A) (t : nat) : skipn (S t) l = tl (skipn t l).
Proof.
  revert l. induction t as [| t IH]; intros [| a l]; try reflexivity.
  change (skipn (S (S t)) (a :: l)) with (skipn (S t) l).
  change (skipn (S t) (a :: l)) with (skipn t l). apply IH.
Qed.

Lemma nth_of_skipn {A : Type} (l : list A) (t : nat) (d : A) : nth t l d = hd d (skipn t l).
Proof.
  revert l. induction t as [| t IH]; intros [| a l]; try reflexivity. simpl. apply IH.
Qed.

(** A density evaluation that returns had a regime in {0, 1}, a row of
    two entries and eight parameters or more, and left its arguments in
    the instance. *)
Lemma normpdf_ok (s : Z) (xt : list float64) (yt : float64) (guess : list float64)
    (st st' : self) (v : float64) :
  _normpdf s xt yt guess st = (Ok v, st') ->
  length xt = 2%nat /\ (8 <= length guess)%nat
  /\ st' = wrote st (beta_of s guess) (var_of s guess) xt yt.
Proof.
  intros H.
  assert (Hs : (s = 0 \/ s = 1)%Z).
  { destruct (Z.eq_dec s 0) as [E0 | N0]; [now left |].
    destruct (Z.eq_dec s 1) as [E1 | N1]; [now right |].
    rewrite normpdf_bad_regime in H by (split; assumption). discriminate H. }
  destruct (Nat.lt_ge_cases (length guess) 8) as [Hshort | Hlen].
  { rewrite normpdf_short_guess in H by assumption. discriminate H. }
  rewrite normpdf_run in H by assumption.
  destruct (dot xt (beta_of s guess)) as [xb | e] eqn:D; [| discriminate H].
  assert (Hx : length xt = length (beta_of s guess)).
  { apply dot_defined. exists xb. exact D. }
  rewrite length_beta_of in Hx by assumption.
  injection H as _ H. now repeat split.
Qed.

(** ** The linear solver and the shape of its right-hand side *)

Lemma rmap_list_ok {A B : Type} (f : A -> result B) (l : list A) (bs : list B) :
  rmap_list f l = Ok bs -> forall a : A, In a l -> exists b : B, f a = Ok b.
Proof.
  revert bs. induction l as [| x l IH]; intros bs H a Ha; [contradiction |].
  simpl in H. apply rbind_ok in H. destruct H as (b & Hb & H).
  apply rbind_ok in H. destruct H as (bs' & Hbs & _).
  destruct Ha as [<- | Ha]; [eauto | exact (IH bs' Hbs a Ha)].
Qed.

Lemma matvec_ok_rows (A : list (list float64)) (v w : list float64) :
  matvec A v = Ok w -> forall row : list float64, In row A -> length row = length v.
Proof.
  intros H row Hrow. destruct (rmap_list_ok _ _ _ H row Hrow) as [b Hb].
  apply dot_defined. exists b. exact Hb.
Qed.

Lemma linear_solve_ok_rows (A : list (list float64)) (b x : list float64) :
  _linear_solve A b = Ok x ->
  forall (r : list float64) (R : list (list float64)), A = r :: R -> r <> [] ->
  length b = length A.
Proof.
  unfold _linear_solve. intros H r R -> Hr.
  apply rbind_ok in H. destruct H as (AtA & _ & H).
  apply rbind_ok in H. destruct H as (M & _ & H).
  apply rbind_ok in H. destruct H as (Atb & HAtb & _).
  destruct r as [| r0 r']; [contradiction |].
  symmetry. rewrite <- (matvec_ok_rows _ _ _ HAtb (map (fun row => nth 0 row zero) ((r0 :: r') :: R))).
  - now rewrite length_map.
  - left. reflexivity.
Qed.

(** X4.  [_linear_solve(A, b)] returns only for a right-hand side with one
    entry per row of [A]: for a matrix of at least one row and one column
    and a [b] of any other length it raises, at the factorisation or at
    [A.T @ b], whatever the entries. *)
Theorem linear_solve_raises_on_a_mismatched_right_hand_side
    (r : list float64) (R : list (list float64)) (b : list float64) :
  r <> [] -> length b <> length (r :: R) ->
  exists e : exn, _linear_solve (r :: R) b = Raise e.
Proof.
  intros Hr Hb. destruct (_linear_solve (r :: R) b) as [x | e] eqn:E; [| now exists e].
  exfalso. apply Hb. exact (linear_solve_ok_rows _ _ _ E r R eq_refl Hr).
Qed.

Lemma linear_solve_raises_on_a_mismatched_right_hand_side_witness :
  exists e : exn,
    _linear_solve ([Finite 1; Finite 0] :: [[Finite 0; Finite 1]; [Finite 1; Finite 1]])
                  [Finite 1; Finite 2] = Raise e.
Proof.
  apply (linear_solve_raises_on_a_mismatched_right_hand_side
           [Finite 1; Finite 0] [[Finite 0; Finite 1]; [Finite 1; Finite 1]]
           [Finite 1; Finite 2]).
  - discriminate.
  - simpl; lia.
Defined.

(** ** A likelihood evaluation that returns *)

Lemma wrote_twice (st : self) (b b' : list float64) (v v' : float64) (x x' : list float64)
    (y y' : float64) :
  wrote (wrote st b v x y) b' v' x' y' = wrote st b' v' x' y'.
Proof. reflexivity. Qed.

(** One pass of the loop that returns: the observation exists, its row
    has two entries, the pass left it in the instance with the parameters
    of regime 1, and of [cond_density] it changed entry [t] alone. *)
Lemma filter_step_ok (X : list (list float64)) (y theta : list float64) (P : list (list float64))
    (t : nat) (L L' : locals) (st st' : self) :
  filter_step X y theta P t L st = (Ok L', st') ->
  (t < length X)%nat /\ (t < length y)%nat /\ length (nth t X []) = 2%nat
  /\ st' = wrote st (beta_of 1 theta) (var_of 1 theta) (nth t X []) (nth t y zero)
  /\ exists w : float64, cond_density L' = Py.update (cond_density L) t w.
Proof.
  intros H. unfold filter_step in H. cbv zeta in H. invert_run H.
  apply ret_ok in H. destruct H as [-> ->].
  repeat match goal with
         | K : Py.getitem X (Z.of_nat t) = Ok _ |- _ =>
             apply (getitem_ok_nat X t _ []) in K; destruct K as [? <-]
         | K : Py.getitem y (Z.of_nat t) = Ok _ |- _ =>
             apply (getitem_ok_nat y t _ zero) in K; destruct K as [? <-]
         | K : _normpdf _ _ _ _ _ = (Ok _, _) |- _ =>
             apply normpdf_ok in K; destruct K as (? & ? & ->)
         | K : Py.setitem (cond_density L) (Z.of_nat t) _ = Ok _ |- _ =>
             apply setitem_ok_nat in K; destruct K as [? ->]
         end.
  cbn [cond_density]. rewrite wrote_twice.
  repeat split; try assumption. eexists. reflexivity.
Qed.

Lemma last_write_step (st : self) (X : list (list float64)) (y theta : list float64)
    (t m : nat) :
  last_write (wrote st (beta_of 1 theta) (var_of 1 theta) (nth t X []) (nth t y zero))
             X y theta (S t) m
  = last_write st X y theta t (S m).
Proof.
  destruct m as [| m]; unfold last_write.
  - now replace (t + 1 - 1)%nat with t by lia.
  - rewrite wrote_twice. now replace (S t + S m - 1)%nat with (t + S (S m) - 1)%nat by lia.
Qed.

Lemma filter_loop_ok (X : list (list float64)) (y theta : list float64)
    (P : list (list float64)) :
  forall (m t : nat) (L L' : locals) (st st' : self),
  (1 <= t)%nat ->
  for_each (seq t m) (filter_step X y theta P) L st = (Ok L', st') ->
  (forall j : nat, (t <= j < t + m)%nat ->
     (j < length X)%nat /\ (j < length y)%nat /\ length (nth j X []) = 2%nat)
  /\ st' = last_write st X y theta t m
  /\ (forall (c : float64) (rest : list float64), cond_density L = c :: rest ->
        exists rest' : list float64, cond_density L' = c :: rest').
Proof.
  induction m as [| m IH]; intros t L L' st st' Ht H.
  - cbn [seq for_each] in H. apply ret_ok in H. destruct H as [-> ->].
    split; [intros j Hj; lia |]. split; [reflexivity |]. eauto.
  - cbn [seq for_each] in H. apply bind_ok in H. destruct H as (L1 & st1 & Hstep & H).
    apply filter_step_ok in Hstep. destruct Hstep as (HX & Hy & Hrow & -> & w & Hcd).
    apply IH in H; [| lia]. destruct H as (Hall & -> & Hhead).
    split; [| split].
    + intros j Hj. destruct (Nat.eq_dec j t) as [-> | Hne]; [now repeat split |].
      apply Hall. lia.
    + apply last_write_step.
    + intros c rest Hc. rewrite Hc in Hcd.
      destruct (update_tail c rest t w Ht) as [l' Hl']. rewrite Hl' in Hcd.
      exact (Hhead c l' Hcd).
Qed.

(** The matrix of the seeding system has three rows of two entries,
    whatever the two probabilities. *)
Lemma seed_system_shape (a b : float64) :
  exists r1 r2 r3 : list float64,
    concatenate (sub_broadcast_col [[Finite 1]; [Finite 1]] (_transition_matrix a b))
                (transpose [[Finite 1]; [Finite 1]])
    = [r1; r2; r3]
    /\ r1 <> [].
Proof. do 3 eexists. split; [reflexivity | discriminate]. Qed.

Lemma zeros_ok (k : Z) (a : list float64) :
  zeros k = Ok a -> (0 <= k)%Z /\ a = repeat zero (Z.to_nat k).
Proof.
  unfold zeros. destruct (Z.ltb_spec k 0) as [Hneg | Hpos]; intros H; [discriminate H |].
  injection H as <-. now split.
Qed.

(** The code of [_loglikelihood] before its loop, on a call that returns:
    two regimes, a first observation whose row has two entries, eight
    parameters or more; the loop then starts from a [cond_density] of
    zeros, with that observation in the instance. *)
Lemma loglikelihood_locals_reaches_the_loop
    (X : list (list float64)) (y theta : list float64) (st st' : self) (L : locals) :
  _loglikelihood_locals X y theta st = (Ok L, st') ->
  regime st = 2%Z /\ (8 <= length theta)%nat
  /\ exists (x0 : list float64) (X' : list (list float64)) (y0 : float64) (y' : list float64)
            (P : list (list float64)) (L0 : locals),
       X = x0 :: X' /\ y = y0 :: y' /\ length x0 = 2%nat
       /\ cond_density L0 = zero :: repeat zero (length X')
       /\ for_each (seq 1 (length X')) (filter_step X y theta P) L0
            (wrote st (beta_of 1 theta) (var_of 1 theta) x0 y0) = (Ok L, st').
Proof.
  intros H. unfold _loglikelihood_locals in H. cbv zeta in H. invert_run H.
  assert (Hreg : regime st = 2%Z).
  { match goal with
    | K1 : zeros (regime st + 1) = Ok ?b0, K2 : Py.setitem ?b0 _ _ = Ok ?b,
      K3 : _linear_solve (concatenate (sub_broadcast_col _ (_transition_matrix ?p ?q)) _) ?b
           = Ok _ |- _ =>
        apply zeros_ok in K1; destruct K1 as [Hk ->];
        apply setitem_ok_length in K2; rewrite repeat_length in K2;
        destruct (seed_system_shape p q) as (r1 & r2 & r3 & HA & Hr1);
        pose proof (linear_solve_ok_rows _ _ _ K3 r1 [r2; r3] HA Hr1) as Hlen;
        rewrite HA in Hlen; simpl in Hlen; lia
    end. }
  repeat match goal with
         | K : Py.getitem X 0%Z = Ok _ |- _ =>
             apply (getitem_ok_nat X 0 _ []) in K; destruct K as [? <-]
         | K : Py.getitem y 0%Z = Ok _ |- _ =>
             apply (getitem_ok_nat y 0 _ zero) in K; destruct K as [? <-]
         | K : _normpdf _ _ _ _ _ = (Ok _, _) |- _ =>
             apply normpdf_ok in K; destruct K as (? & ? & ->)
         end.
  rewrite wrote_twice in H.
  destruct X as [| x0 X']; [simpl in *; lia |].
  destruct y as [| y0 y']; [simpl in *; lia |].
  cbn [nth length] in *.
  replace (S (length X') - 1)%nat with (length X') in H by lia.
  split; [exact Hreg |]. split; [assumption |].
  do 6 eexists. split; [reflexivity |]. split; [reflexivity |]. split; [assumption |].
  split; [| exact H]. reflexivity.
Qed.

(** What a likelihood evaluation that returns went through, and what it
    leaves. *)
Lemma loglikelihood_locals_ok
    (X : list (list float64)) (y theta : list float64) (st st' : self) (L : locals) :
  _loglikelihood_locals X y theta st = (Ok L, st') ->
  regime st = 2%Z /\ X <> [] /\ Forall (fun row => length row = 2%nat) X
  /\ (length X <= length y)%nat /\ (8 <= length theta)%nat
  /\ (exists rest : list float64, cond_density L = zero :: rest)
  /\ st' = wrote st (beta_of 1 theta) (var_of 1 theta)
                 (nth (length X - 1) X []) (nth (length X - 1) y zero).
Proof.
  intros H. apply loglikelihood_locals_reaches_the_loop in H.
  destruct H as (Hreg & Hth & x0 & X' & y0 & y' & P & L0 & -> & -> & Hx0 & Hcd & Hloop).
  apply filter_loop_ok in Hloop; [| lia]. destruct Hloop as (Hall & -> & Hhead).
  split; [exact Hreg |]. split; [discriminate |]. split; [| split; [| split; [| split]]].
  - apply Forall_forall. intros row Hrow.
    destruct (In_nth _ _ [] Hrow) as (j & Hj & <-).
    destruct j as [| j]; [exact Hx0 |]. apply (Hall (S j)). simpl in Hj. lia.
  - destruct X' as [| x1 X'']; [simpl; lia |].
    destruct (Hall (S (length X''))) as (_ & Hy & _); [simpl; lia |]. simpl in *. lia.
  - exact Hth.
  - exact (Hhead zero _ Hcd).
  - cbn [length]. replace (S (length X') - 1)%nat with (length X') by lia.
    destruct X' as [| x1 X'']; [reflexivity |].
    unfold last_write. rewrite wrote_twice.
    now replace (1 + length (x1 :: X'') - 1)%nat with (length (x1 :: X'')) by lia.
Qed.

Lemma loglikelihood_ok
    (X : list (list float64)) (y theta : list float64) (st st' : self) (v : float64) :
  _loglikelihood X y theta st = (Ok v, st') ->
  exists L : locals,
    _loglikelihood_locals X y theta st = (Ok L, st') /\ v = mean (log (cond_density L)).
Proof.
  unfold _loglikelihood. intros H. apply bind_ok in H. destruct H as (L & st1 & HL & H).
  apply ret_ok in H. destruct H as [-> ->]. now exists L.
Qed.

Lemma raises_or_returns {A : Type} (m : M A) (st : self) :
  (exists e : exn, fst (m st) = Raise e) \/ (exists (a : A) (st' : self), m st = (Ok a, st')).
Proof.
  destruct (m st) as [[a | e] st'].
  - right. exists a, st'. reflexivity.
  - left. exists e. reflexivity.
Qed.

Lemma mean_log_of_zero_head (rest : list float64) : mean (log (zero :: rest)) = NonFinite.
Proof.
  unfold mean, log, sum. cbn [map fold_right]. unfold zero at 1. rewrite flog_zero. reflexivity.
Qed.

(** X5.  The objective never returns a finite number: [cond_density[0]] is
    never assigned and stays 0, so that whenever the evaluation returns,
    the mean of the logarithms is -inf or nan, whatever the data, the
    parameters and the instance. *)
Theorem objective_never_returns_a_finite_number
    (theta : list float64) (X : list (list float64)) (y : list float64) (st : self)
    (v : float64) :
  fst (_objective_func theta X y st) = Ok v -> v = NonFinite.
Proof.
  intros H. unfold _objective_func in H.
  destruct (bind (_loglikelihood X y theta) (fun f => ret (fneg f)) st) as [[w | e] st'] eqn:E;
    simpl in H; [| discriminate H].
  injection H as ->.
  apply bind_ok in E. destruct E as (f & st1 & Hf & E).
  apply ret_ok in E. destruct E as [-> _].
  apply loglikelihood_ok in Hf. destruct Hf as (L & HL & ->).
  apply loglikelihood_locals_ok in HL. destruct HL as (_ & _ & _ & _ & _ & [rest ->] & _).
  now rewrite mean_log_of_zero_head.
Qed.

Lemma objective_returns_on_three_observations :
  fst (_objective_func theta_start X_three y_three default_instance) = Ok NonFinite.
Proof.
  destruct (hamilton_filter_run X_three y_three theta_start (5 / 10) (5 / 10) default_instance)
    as (L & st' & Hrun & _ & _ & _ & HLc & _);
    [reflexivity | discriminate | repeat constructor | simpl; lia | simpl; lia
    | reflexivity | left; lra |].
  unfold _objective_func, _loglikelihood, bind. rewrite Hrun. unfold ret. cbn [fst].
  rewrite HLc. now rewrite mean_log_of_zero_head.
Qed.

Lemma objective_never_returns_a_finite_number_witness :
  fst (_objective_func theta_start X_three y_three default_instance) = Ok NonFinite
  /\ NonFinite = NonFinite.
Proof.
  split; [exact objective_returns_on_three_observations |].
  exact (objective_never_returns_a_finite_number theta_start X_three y_three default_instance
           NonFinite objective_returns_on_three_observations).
Defined.

(** X6.  An instance built with a number of regimes other than 2 cannot
    evaluate the likelihood: [_loglikelihood] raises on every design
    matrix, response and parameter vector. *)
Theorem loglikelihood_raises_unless_two_regimes
    (X : list (list float64)) (y theta : list float64) (st : self) :
  regime st <> 2%Z -> exists e : exn, fst (_loglikelihood X y theta st) = Raise e.
Proof.
  intros Hreg. destruct (raises_or_returns (_loglikelihood X y theta) st) as [He | (v & st' & H)];
    [exact He | exfalso].
  apply loglikelihood_ok in H. destruct H as (L & HL & _).
  apply loglikelihood_locals_ok in HL. now apply Hreg.
Qed.

Lemma loglikelihood_raises_unless_two_regimes_witness :
  exists e : exn, fst (_loglikelihood X_three y_three theta_start three_regimes) = Raise e.
Proof.
  apply (loglikelihood_raises_unless_two_regimes X_three y_three theta_start three_regimes).
  discriminate.
Defined.

(** X7.  On a design matrix with no row [_loglikelihood] raises, whatever
    the response, the parameters and the instance. *)
Theorem loglikelihood_raises_on_no_observation (y theta : list float64) (st : self) :
  exists e : exn, fst (_loglikelihood [] y theta st) = Raise e.
Proof.
  destruct (raises_or_returns (_loglikelihood [] y theta) st) as [He | (v & st' & H)];
    [exact He | exfalso].
  apply loglikelihood_ok in H. destruct H as (L & HL & _).
  apply loglikelihood_locals_ok in HL. destruct HL as (_ & HX & _). now apply HX.
Qed.

(** X8.  On a design matrix with a row that does not have exactly two
    entries [_loglikelihood] raises, whatever the response, the
    parameters and the instance. *)
Theorem loglikelihood_raises_unless_two_columns
    (X : list (list float64)) (y theta : list float64) (st : self) :
  Exists (fun row => length row <> 2%nat) X ->
  exists e : exn, fst (_loglikelihood X y theta st) = Raise e.
Proof.
  intros Hrow. destruct (raises_or_returns (_loglikelihood X y theta) st) as [He | (v & st' & H)];
    [exact He | exfalso].
  apply loglikelihood_ok in H. destruct H as (L & HL & _).
  apply loglikelihood_locals_ok in HL. destruct HL as (_ & _ & Hall & _).
  apply Exists_exists in Hrow. destruct Hrow as (row & Hin & Hlen).
  rewrite Forall_forall in Hall. exact (Hlen (Hall row Hin)).
Qed.

Lemma loglikelihood_raises_unless_two_columns_witness :
  exists e : exn,
    fst (_loglikelihood [[Finite 1; Finite 1; Finite 1]; [Finite 1; Finite 2; Finite 4]]
                        [Finite 1; Finite 2] theta_start default_instance) = Raise e.
Proof.
  apply (loglikelihood_raises_unless_two_columns
           [[Finite 1; Finite 1; Finite 1]; [Finite 1; Finite 2; Finite 4]]
           [Finite 1; Finite 2] theta_start default_instance).
  left. simpl; lia.
Defined.

(** X9.  When the response has fewer entries than the design matrix has
    rows, [_loglikelihood] raises, whatever the entries, the parameters
    and the instance: the lengths are never compared, and an evaluation
    that gets that far stops at the first missing response. *)
Theorem loglikelihood_raises_on_a_missing_response
    (X : list (list float64)) (y theta : list float64) (st : self) :
  (length y < length X)%nat ->
  exists e : exn, fst (_loglikelihood X y theta st) = Raise e.
Proof.
  intros Hy. destruct (raises_or_returns (_loglikelihood X y theta) st) as [He | (v & st' & H)];
    [exact He | exfalso].
  apply loglikelihood_ok in H. destruct H as (L & HL & _).
  apply loglikelihood_locals_ok in HL. destruct HL as (_ & _ & _ & Hlen & _). lia.
Qed.

Lemma loglikelihood_raises_on_a_missing_response_witness :
  exists e : exn, fst (_loglikelihood X_three y_two theta_start default_instance) = Raise e.
Proof.
  apply (loglikelihood_raises_on_a_missing_response X_three y_two theta_start default_instance).
  simpl; lia.
Defined.

Lemma loglikelihood_runs_on_three_observations :
  exists (v : float64) (st' : self),
    _loglikelihood X_three y_three theta_start default_instance = (Ok v, st').
Proof.
  destruct (hamilton_filter_run X_three y_three theta_start (5 / 10) (5 / 10) default_instance)
    as (L & st' & Hrun & _);
    [reflexivity | discriminate | repeat constructor | simpl; lia | simpl; lia
    | reflexivity | left; lra |].
  exists (mean (log (cond_density L))), st'.
  unfold _loglikelihood, bind. now rewrite Hrun.
Qed.

(** X12.  A likelihood evaluation that returns leaves in the instance the
    coefficients and the variance of regime 1 ([theta[2:4]], [theta[5]])
    and the last observation, as [beta], [var], [xt] and [yt]; [degree],
    [regime] and [fit_intercept] are as they were. *)
Theorem loglikelihood_returns_with_the_last_observation
    (X : list (list float64)) (y theta : list float64) (st st' : self) (v : float64) :
  _loglikelihood X y theta st = (Ok v, st') ->
  st' = wrote st (firstn 2 (skipn 2 theta)) (nth 5 theta zero)
              (nth (length X - 1) X []) (nth (length X - 1) y zero).
Proof.
  intros H. apply loglikelihood_ok in H. destruct H as (L & HL & _).
  apply loglikelihood_locals_ok in HL. now destruct HL as (_ & _ & _ & _ & _ & _ & ->).
Qed.

Lemma loglikelihood_returns_with_the_last_observation_witness :
  exists (v : float64) (st' : self),
    _loglikelihood X_three y_three theta_start default_instance = (Ok v, st')
    /\ st' = wrote default_instance (firstn 2 (skipn 2 theta_start)) (nth 5 theta_start zero)
                   (nth (length X_three - 1) X_three []) (nth (length X_three - 1) y_three zero).
Proof.
  destruct loglikelihood_runs_on_three_observations as (v & st' & H).
  exists v, st'. split; [exact H |].
  exact (loglikelihood_returns_with_the_last_observation
           X_three y_three theta_start default_instance st' v H).
Defined.

(** ** The filter does not see the data *)

Lemma same_filter_step
    (X1 X2 : list (list float64)) (y1 y2 theta1 theta2 : list float64)
    (P : list (list float64)) (t : nat) (L1 L2 L1' L2' : locals) (s1 s2 s1' s2' : self) :
  same_filter t L1 L2 ->
  filter_step X1 y1 theta1 P t L1 s1 = (Ok L1', s1') ->
  filter_step X2 y2 theta2 P t L2 s2 = (Ok L2', s2') ->
  same_filter (S t) L1' L2'.
Proof.
  intros (Hh & Hp & Hc & He) H1 H2.
  unfold filter_step in H1, H2. cbv zeta in H1, H2.
  invert_run H1. invert_run H2.
  apply ret_ok in H1. destruct H1 as [-> _].
  apply ret_ok in H2. destruct H2 as [-> _].
  rewrite <- Hh, <- Hp, <- Hc in *.
  repeat match goal with
         | K : Py.getitem (eta_t _) (Z.of_nat t) = Ok _ |- _ =>
             apply (getitem_ok_nat _ t _ []) in K; destruct K as [_ <-]
         end.
  rewrite !nth_of_skipn, <- He in *.
  repeat match goal with
         | K : setrow (eta_t _) (Z.of_nat t) _ = Ok _ |- _ =>
             apply setrow_ok_nat in K; destruct K as (_ & ? & ->)
         end.
  unfold same_filter. cbn [hfilter predictions cond_density eta_t].
  split; [congruence |]. split; [congruence |]. split; [congruence |].
  rewrite !skipn_update, !skipn_succ. now rewrite He.
Qed.

Lemma same_filter_loop
    (X1 X2 : list (list float64)) (y1 y2 theta1 theta2 : list float64)
    (P : list (list float64)) :
  forall (m t : nat) (L1 L2 L1' L2' : locals) (s1 s2 s1' s2' : self),
  same_filter t L1 L2 ->
  for_each (seq t m) (filter_step X1 y1 theta1 P) L1 s1 = (Ok L1', s1') ->
  for_each (seq t m) (filter_step X2 y2 theta2 P) L2 s2 = (Ok L2', s2') ->
  same_filter (t + m) L1' L2'.
Proof.
  induction m as [| m IH]; intros t L1 L2 L1' L2' s1 s2 s1' s2' Hsame H1 H2.
  - cbn [seq for_each] in H1, H2.
    apply ret_ok in H1. destruct H1 as [-> _]. apply ret_ok in H2. destruct H2 as [-> _].
    now rewrite Nat.add_0_r.
  - cbn [seq for_each] in H1, H2.
    apply bind_ok in H1. destruct H1 as (M1 & r1 & Hstep1 & H1).
    apply bind_ok in H2. destruct H2 as (M2 & r2 & Hstep2 & H2).
    pose proof (same_filter_step _ _ _ _ _ _ _ _ _ _ _ _ _ _ _ _ Hsame Hstep1 Hstep2) as Hnext.
    replace (t + S m)%nat with (S t + m)%nat by lia.
    exact (IH (S t) _ _ _ _ _ _ _ _ Hnext H1 H2).
Qed.

(** X15.  The filter does not see the data: two likelihood evaluations
    that return, on design matrices of the same number of rows and with
    the same two logits, end with the same [hfilter], [predictions] and
    [cond_density], whatever the observations, the coefficients, the
    variances and the instances. *)
Theorem filter_does_not_see_the_data
    (X1 X2 : list (list float64)) (y1 y2 theta1 theta2 : list float64)
    (s1 s2 s1' s2' : self) (L1 L2 : locals) :
  length X1 = length X2 ->
  Py.slice theta1 (Some (-2)%Z) None = Py.slice theta2 (Some (-2)%Z) None ->
  _loglikelihood_locals X1 y1 theta1 s1 = (Ok L1, s1') ->
  _loglikelihood_locals X2 y2 theta2 s2 = (Ok L2, s2') ->
  hfilter L1 = hfilter L2 /\ predictions L1 = predictions L2
  /\ cond_density L1 = cond_density L2.
Proof.
  intros Hlen Hslice H1 H2.
  assert (Hr1 : regime s1 = 2%Z) by (now apply loglikelihood_locals_ok in H1).
  assert (Hr2 : regime s2 = 2%Z) by (now apply loglikelihood_locals_ok in H2).
  unfold _loglikelihood_locals in H1, H2. cbv zeta in H1, H2.
  invert_run H1. invert_run H2.
  rewrite Hr1, Hr2, <- Hslice, <- Hlen in *.
  repeat match goal with
         | K : setrow _ 0%Z ?d = Ok _ |- _ =>
             lazymatch goal with
             | K' : Py.setitem _ 1%Z _ = Ok d |- _ =>
                 apply (setrow_ok_nat _ _ 0) in K; destruct K as (_ & ? & ->)
             end
         end.
  match goal with
  | K1 : for_each _ (filter_step X1 y1 theta1 ?P1) ?A1 _ = _,
    K2 : for_each _ (filter_step X2 y2 theta2 ?P2) ?A2 _ = _ |- _ =>
      assert (HP : P1 = P2) by congruence;
      assert (Hsame : same_filter 1 A1 A2)
  end.
  { unfold same_filter. cbn [hfilter predictions cond_density eta_t].
    split; [congruence |]. split; [congruence |]. split; [reflexivity |].
    rewrite !skipn_update. congruence. }
  rewrite HP in H1.
  pose proof (same_filter_loop _ _ _ _ _ _ _ _ _ _ _ _ _ _ _ _ _ Hsame H1 H2)
    as (Hh & Hp & Hc & _).
  now repeat split.
Qed.

Lemma filter_does_not_see_the_data_witness :
  exists (L1 L2 : locals) (s1' s2' : self),
    _loglikelihood_locals X_three y_three theta_start default_instance = (Ok L1, s1')
    /\ _loglikelihood_locals X_other y_other theta_other default_instance = (Ok L2, s2')
    /\ hfilter L1 = hfilter L2 /\ predictions L1 = predictions L2
    /\ cond_density L1 = cond_density L2.
Proof.
  destruct (hamilton_filter_run X_three y_three theta_start (5 / 10) (5 / 10) default_instance)
    as (L1 & s1' & H1 & _);
    [reflexivity | discriminate | repeat constructor | simpl; lia | simpl; lia
    | reflexivity | left; lra |].
  destruct (hamilton_filter_run X_other y_other theta_other (5 / 10) (5 / 10) default_instance)
    as (L2 & s2' & H2 & _);
    [reflexivity | discriminate | repeat constructor | simpl; lia | simpl; lia
    | reflexivity | left; lra |].
  exists L1, L2, s1', s2'. split; [exact H1 |]. split; [exact H2 |].
  exact (filter_does_not_see_the_data X_three X_other y_three y_other theta_start theta_other
           default_instance default_instance s1' s2' L1 L2 eq_refl eq_refl H1 H2).
Defined.

(** ** Parameter vectors that are too short *)

Lemma never_returns_bind_l {A B : Type} (m : M A) (k : A -> M B) :
  never_returns m -> never_returns (bind m k).
Proof.
  intros Hm st. destruct (Hm st) as [e He]. unfold bind.
  destruct (m st) as [[a | e'] st']; simpl in He; [discriminate He |].
  exists e'. reflexivity.
Qed.

Lemma never_returns_bind_r {A B : Type} (m : M A) (k : A -> M B) :
  (forall a : A, never_returns (k a)) -> never_returns (bind m k).
Proof.
  intros Hk st. unfold bind. destruct (m st) as [[a | e] st'].
  - apply Hk.
  - exists e. reflexivity.
Qed.

Lemma normpdf_never_returns_on_short_guess
    (s : Z) (xt : list float64) (yt : float64) (guess : list float64) :
  (length guess < 8)%nat -> never_returns (_normpdf s xt yt guess).
Proof.
  intros Hlen st.
  destruct (Z.eq_dec s 0) as [E0 | N0]; [| destruct (Z.eq_dec s 1) as [E1 | N1]].
  - rewrite normpdf_short_guess by (try assumption; now left). eexists; reflexivity.
  - rewrite normpdf_short_guess by (try assumption; now right). eexists; reflexivity.
  - rewrite normpdf_bad_regime by (split; assumption). eexists; reflexivity.
Qed.

(** X10.  For a parameter vector of fewer than eight entries
    [_loglikelihood] returns on no data and no instance. *)
Theorem loglikelihood_needs_eight_parameters
    (X : list (list float64)) (y theta : list float64) (st : self) :
  (length theta < 8)%nat ->
  exists e : exn, fst (_loglikelihood X y theta st) = Raise e.
Proof.
  intros Hlen. revert st. change (never_returns (_loglikelihood X y theta)).
  unfold _loglikelihood. apply never_returns_bind_l.
  unfold _loglikelihood_locals. cbv zeta.
  do 15 (apply never_returns_bind_r; intros ?).
  apply never_returns_bind_l.
  now apply normpdf_never_returns_on_short_guess.
Qed.

Lemma loglikelihood_needs_eight_parameters_witness :
  exists e : exn,
    fst (_loglikelihood X_three y_three [Finite 1; Finite 1; Finite (5 / 10); Finite (5 / 10)]
                        default_instance) = Raise e.
Proof.
  apply (loglikelihood_needs_eight_parameters X_three y_three). simpl; lia.
Defined.

(** ** Every outcome of the density evaluator *)

(** X11.  Every outcome of [_normpdf], in the order the checks are made:
    the regime error, then the index error of a parameter vector shorter
    than eight, both leaving the instance untouched; then the four
    attributes are overwritten, and the call returns for a row of two
    entries and raises the shape error for any other row, with the
    attributes already replaced. *)
Theorem normpdf_outcome
    (s : Z) (xt : list float64) (yt : float64) (guess : list float64) (st : self) :
  _normpdf s xt yt guess st
  = if negb ((s =? 0)%Z || (s =? 1)%Z) then (Raise regime_not_supported, st)
    else if (length guess <? 8)%nat then (Raise (IndexError "index out of bounds"), st)
    else if (length xt =? 2)%nat then
      (Ok (normpdf_value s xt yt guess), wrote st (beta_of s guess) (var_of s guess) xt yt)
    else (Raise matmul_mismatch, wrote st (beta_of s guess) (var_of s guess) xt yt).
Proof.
  destruct (Z.eqb_spec s 0) as [E0 | N0]; [| destruct (Z.eqb_spec s 1) as [E1 | N1]];
    cbn [orb negb].
  - destruct (Nat.ltb_spec (length guess) 8) as [Hlen | Hlen].
    + apply normpdf_short_guess; [now left | assumption].
    + destruct (Nat.eqb_spec (length xt) 2) as [Hx | Hx].
      * apply normpdf_returns; [now left | assumption | assumption].
      * rewrite normpdf_run by (try assumption; now left).
        unfold dot. rewrite length_beta_of by assumption.
        destruct (Nat.eqb_spec (length xt) 2); [contradiction | reflexivity].
  - destruct (Nat.ltb_spec (length guess) 8) as [Hlen | Hlen].
    + apply normpdf_short_guess; [now right | assumption].
    + destruct (Nat.eqb_spec (length xt) 2) as [Hx | Hx].
      * apply normpdf_returns; [now right | assumption | assumption].
      * rewrite normpdf_run by (try assumption; now right).
        unfold dot. rewrite length_beta_of by assumption.
        destruct (Nat.eqb_spec (length xt) 2); [contradiction | reflexivity].
  - apply normpdf_bad_regime. split; assumption.
Qed.

(** ** The likelihood reads nothing but the number of regimes *)

Lemma reads_only_regime_ret {A : Type} (a : A) : reads_only_regime (ret a).
Proof. split; intros; reflexivity. Qed.

Lemma reads_only_regime_lift {A : Type} (r : result A) : reads_only_regime (lift r).
Proof. split; intros; reflexivity. Qed.

Lemma reads_only_regime_get : reads_only_regime (get regime).
Proof. split; intros st; [reflexivity |]. intros st' H. unfold get; simpl. now f_equal. Qed.

Lemma reads_only_regime_write (beta : list float64) (var : float64) (xt : list float64)
    (yt : float64) :
  reads_only_regime
    (put (fun st => mkSelf (degree st) (regime st) (fit_intercept st)
                           (Some beta) (Some var) (Some xt) (Some yt))).
Proof. split; intros; reflexivity. Qed.

Lemma reads_only_regime_bind {A B : Type} (m : M A) (k : A -> M B) :
  reads_only_regime m -> (forall a, reads_only_regime (k a)) -> reads_only_regime (bind m k).
Proof.
  unfold reads_only_regime, same_regime. intros [Hm1 Hm2] Hk. split.
  - intros st. unfold bind. specialize (Hm1 st).
    destruct (m st) as [[a | e] st1]; simpl in *; [| exact Hm1].
    rewrite Hm1. apply (Hk a).
  - intros st st' Hc. unfold bind.
    pose proof (Hm2 st st' Hc) as Hr.
    pose proof (Hm1 st) as H1. pose proof (Hm1 st') as H1'.
    destruct (m st) as [[a | e] st1], (m st') as [[a' | e'] st1']; simpl in *;
      try discriminate Hr.
    + injection Hr as <-. apply (Hk a). congruence.
    + injection Hr as <-. reflexivity.
Qed.

Ltac reads_only_regime_step :=
  first [ apply reads_only_regime_ret | apply reads_only_regime_lift
        | apply reads_only_regime_get | apply reads_only_regime_write
        | apply reads_only_regime_bind; [| intros ? ] ].

Lemma reads_only_regime_normpdf (s : Z) (xt : list float64) (yt : float64)
    (guess : list float64) :
  reads_only_regime (_normpdf s xt yt guess).
Proof. unfold _normpdf. repeat reads_only_regime_step. Qed.

Lemma reads_only_regime_for_each {S : Type} (ts : list nat) (body : nat -> S -> M S) :
  (forall t L, reads_only_regime (body t L)) -> forall L, reads_only_regime (for_each ts body L).
Proof.
  intros Hb. induction ts as [| t ts IH]; intros L; simpl.
  - apply reads_only_regime_ret.
  - apply reads_only_regime_bind; [apply Hb | exact IH].
Qed.

Lemma reads_only_regime_filter_step (X : list (list float64)) (y theta : list float64)
    (P : list (list float64)) (t : nat) (L : locals) :
  reads_only_regime (filter_step X y theta P t L).
Proof.
  unfold filter_step. repeat first [ apply reads_only_regime_normpdf | reads_only_regime_step ].
Qed.

Lemma reads_only_regime_objective (guess : list float64) (X : list (list float64))
    (y : list float64) :
  reads_only_regime (_objective_func guess X y).
Proof.
  unfold _objective_func, _loglikelihood, _loglikelihood_locals.
  repeat first [ apply reads_only_regime_normpdf
               | apply reads_only_regime_for_each; intros; apply reads_only_regime_filter_step
               | reads_only_regime_step ].
Qed.

(** X16.  The objective never reads [degree] or [fit_intercept]: its
    value is the same on an instance built with any other values of the
    two, and it leaves [regime] as it was. *)
Theorem objective_ignores_degree_and_intercept
    (theta : list float64) (X : list (list float64)) (y : list float64) (st : self)
    (d : Z) (f : bool) :
  fst (_objective_func theta X y
         (mkSelf d (regime st) f (attr_beta st) (attr_var st) (attr_xt st) (attr_yt st)))
  = fst (_objective_func theta X y st)
  /\ regime (snd (_objective_func theta X y st)) = regime st.
Proof.
  destruct (reads_only_regime_objective theta X y) as [Hkeep Hsame]. split.
  - apply Hsame. reflexivity.
  - symmetry. apply Hkeep.
Qed.
